(** * Pathify AI backend: the career scoring engine and the roadmap selector

    A shallow embedding of [score_careers], [CAREER_LIBRARY] and
    [generate_roadmap] of [main.py], with the pydantic models of
    [schemas.py] as records, and the properties of the specification stated
    over them.

    Conventions of the embedding:
    - a Python [str] is a [string] (its UTF-8 bytes); equality of [str]
      values is equality of these byte sequences;
    - a Python [int] is a [Z]; a Python [float] is a binary64 value of
      [SpecFloat], with the operations rounding to nearest, ties to even;
    - a [dict] is an association list in insertion order, which is the order
      in which CPython iterates it;
    - a [set] of [str] is the list of its members in the order in which
      iteration yields them (see [SetOrder]);
    - code that can raise returns a [result]. *)

From Stdlib Require Import List ZArith String Ascii Bool Lia.
From Stdlib Require Import Permutation Sorted.
From Stdlib Require Import QArith Qround.
From Stdlib Require Import Floats.SpecFloat.
Import ListNotations.

Close Scope Q_scope.
Open Scope string_scope.
Open Scope Z_scope.

(** ** Exceptions *)

Inductive PyExn : Type :=
  | OverflowError
  | ValueError
  | ZeroDivisionError
  | KeyError.

Inductive result (A : Type) : Type :=
  | Ok (a : A)
  | Raise (e : PyExn).

Arguments Ok {A} a.
Arguments Raise {A} e.

Definition bind {A B : Type} (r : result A) (k : A -> result B) : result B :=
  match r with
  | Ok a => k a
  | Raise e => Raise e
  end.

Notation "x <- r ;; k" := (bind r (fun x => k))
  (at level 61, r at next level, right associativity).

(** [for x in xs: ys.append(f x)], where [f] may raise: the first exception
    leaves the loop. *)
Fixpoint for_each {A B : Type} (f : A -> result B) (xs : list A)
  : result (list B) :=
  match xs with
  | [] => Ok []
  | x :: xs' =>
      y <- f x ;;
      ys <- for_each f xs' ;;
      Ok (y :: ys)
  end.

(** ** Python floats: IEEE 754 binary64 *)

Module PyFloat.

Definition prec : Z := 53.
Definition emax : Z := 1024.

Definition float : Type := spec_float.

(** An integer as an unrounded significand with exponent 0. *)
Definition raw (z : Z) : float :=
  match z with
  | Z0 => S754_zero false
  | Zpos p => S754_finite false p 0
  | Zneg p => S754_finite true p 0
  end.

(** [float(z)] for an integer operand of a mixed [float]/[int] operation:
    the nearest binary64 value (exact below 2^53). *)
Definition of_int (z : Z) : float := binary_normalize prec emax z 0 false.

Definition sub (x y : float) : float := SFsub prec emax x y.
Definition mul (x y : float) : float := SFmul prec emax x y.

(** [a / b] on two [int]s: the correctly rounded quotient of the two
    integers; CPython raises when the divisor is 0 and when the quotient
    is too large for a float. *)
Definition true_div (a b : Z) : result float :=
  if b =? 0 then Raise ZeroDivisionError
  else
    match SFdiv prec emax (raw a) (raw b) with
    | S754_infinity _ => Raise OverflowError
    | q => Ok q
    end.

(** [int(x)]: truncation toward zero; infinities and NaN raise. *)
Definition to_int (x : float) : result Z :=
  match x with
  | S754_zero _ => Ok 0
  | S754_infinity _ => Raise OverflowError
  | S754_nan => Raise ValueError
  | S754_finite s m e =>
      let mag :=
        match e with
        | Z0 => Zpos m
        | Zpos _ => Z.shiftl (Zpos m) e
        | Zneg _ => Z.shiftr (Zpos m) (- e)
        end in
      Ok (if s then - mag else mag)
  end.

End PyFloat.

(** ** Sets of strings

    CPython iterates a set of strings in an order fixed by the members'
    hashes, which it salts anew in every interpreter process: the order is
    the same throughout one run of the server and is otherwise any order of
    the distinct members.  [py_set xs] is [set(xs)], listed in that
    order. *)

Record SetOrder : Type := {
  py_set : list string -> list string;
  py_set_NoDup : forall xs, NoDup (py_set xs);
  py_set_In : forall xs x, In x (py_set xs) <-> In x xs
}.

(** [x in s] *)
Definition mem (x : string) (s : list string) : bool :=
  existsb (String.eqb x) s.

(** [a.intersection(b)], as the members of [a] that are in [b]. *)
Definition intersection (a b : list string) : list string :=
  filter (fun x => mem x b) a.

(** [len(xs)] *)
Definition len {A : Type} (xs : list A) : Z := Z.of_nat (List.length xs).

(** [sum(xs)] *)
Definition sum (xs : list Z) : Z := fold_left Z.add xs 0.

(** [xs[:n]] for a literal [n >= 0] *)
Definition slice_to {A : Type} (n : nat) (xs : list A) : list A := firstn n xs.

(** ** schemas.py *)

Record AssessmentSubmission : Type := {
  academic_performance : string;
  interests : list string;
  skills : list string;
  preferences : list string;
  personality_answers : list Z;
  uploaded_docs : option (list string);
  language : string
}.

(** The values the source stores under [Dict[str, Any]]. *)
Inductive PyValue : Type :=
  | VInt (z : Z)
  | VFloat (x : PyFloat.float)
  | VStr (s : string)
  | VStrList (l : list string).

Record CareerMatch : Type := {
  career : string;
  match_percent : Z;
  why_match : list string;
  strengths : list string;
  skill_gap : list string;
  salary_forecast : list (string * PyValue);
  demand_trends : list (string * PyValue)
}.

Record Roadmap : Type := {
  r_career : string;
  r_summary : string;
  r_required_skills : list string;
  r_roadmap : list (string * list string);
  r_actions : list string
}.

(** ** main.py: the catalog *)

Record CareerMeta : Type := {
  meta_skills : list string;
  meta_why : list string
}.

Definition CAREER_LIBRARY : list (string * CareerMeta) :=
  [ ("Software Engineer",
     {| meta_skills := ["Data Structures"; "Algorithms"; "Python"; "Git"; "System Design"];
        meta_why := ["Strong analytical thinking"; "Enjoys building things"; "High demand across industries"] |});
    ("Data Scientist",
     {| meta_skills := ["Statistics"; "Python"; "Pandas"; "Machine Learning"; "Visualization"];
        meta_why := ["Enjoys working with data"; "Curiosity for patterns"; "Growing AI ecosystem"] |});
    ("UI/UX Designer",
     {| meta_skills := ["Figma"; "User Research"; "Prototyping"; "Visual Design"; "Accessibility"];
        meta_why := ["Creative problem solving"; "Empathy for users"; "Portfolio-driven growth"] |});
    ("Cybersecurity Analyst",
     {| meta_skills := ["Network Basics"; "Linux"; "Threat Modeling"; "SIEM"; "Security+"];
        meta_why := ["Detail-oriented"; "Protective mindset"; "Rising threats -> demand"] |});
    ("Product Manager",
     {| meta_skills := ["Communication"; "Roadmapping"; "User Stories"; "Analytics"; "Leadership"];
        meta_why := ["Cross-functional"; "User + business focus"; "High leverage role"] |}) ].

(** [CAREER_LIBRARY.get(career, default)] *)
Fixpoint library_get (lib : list (string * CareerMeta)) (c : string)
    (default : CareerMeta) : CareerMeta :=
  match lib with
  | [] => default
  | (k, v) :: rest => if String.eqb k c then v else library_get rest c default
  end.

(** The catalog's profile of a career. *)
Definition profile (c : string) : CareerMeta :=
  library_get CAREER_LIBRARY c {| meta_skills := []; meta_why := [] |}.

(** ** main.py: [score_careers] *)

(** [results.sort(key=lambda m: m.match_percent, reverse=True)].  Python's
    sort is stable, also under [reverse=True]; the stable arrangement of a
    list by a key is unique, so it is written here as insertion from the
    right. *)
Fixpoint insert_desc (m : CareerMatch) (l : list CareerMatch) : list CareerMatch :=
  match l with
  | [] => [m]
  | x :: r =>
      if match_percent m <? match_percent x
      then x :: insert_desc m r
      else m :: x :: r
  end.

Definition sort_desc (l : list CareerMatch) : list CareerMatch :=
  fold_right insert_desc [] l.

Section Scoring.

(** [str.lower], which the interpreter supplies. *)
Variable lower : string -> string.

(** The order in which this interpreter process iterates its sets. *)
Variable so : SetOrder.

(** [int((personality - 3) * 4)] *)
Definition tilt_of (personality : PyFloat.float) : result Z :=
  PyFloat.to_int
    (PyFloat.mul (PyFloat.sub personality (PyFloat.of_int 3)) (PyFloat.of_int 4)).

(** The interest-based boosts of one pass of the loop, from [base = 50]. *)
Definition interest_base (interests : list string) (career : string) : Z :=
  let base := 50 in
  let base :=
    if mem "code" interests || mem "programming" interests || mem "software" interests
    then (if String.eqb career "Software Engineer" then base + 25 else base)
    else base in
  let base :=
    if mem "design" interests
    then (if String.eqb career "UI/UX Designer" then base + 22 else base)
    else base in
  let base :=
    if mem "data" interests || mem "math" interests
    then (if String.eqb career "Data Scientist" then base + 24 else base)
    else base in
  let base :=
    if mem "security" interests || mem "network" interests
    then (if String.eqb career "Cybersecurity Analyst" then base + 20 else base)
    else base in
  let base :=
    if mem "lead" interests || mem "business" interests
    then (if String.eqb career "Product Manager" then base + 18 else base)
    else base in
  base.

(** [len(set([s.lower() for s in meta["skills"]]).intersection(skills))] *)
Definition overlap (meta : CareerMeta) (skills : list string) : Z :=
  len (intersection (py_set so (map lower (meta_skills meta))) skills).

(** The body of the loop over [CAREER_LIBRARY.items()]. *)
Definition score_one (interests skills : list string) (personality : PyFloat.float)
    (entry : string * CareerMeta) : result CareerMatch :=
  let (career, meta) := entry in
  let base := interest_base interests career in
  let base := base + Z.min (overlap meta skills * 6) 18 in
  t <- tilt_of personality ;;
  let base := base + t in
  let base := Z.max 1 (Z.min 97 base) in
  let gap := filter (fun s => negb (mem (lower s) skills)) (meta_skills meta) in
  let salary :=
    [ ("entry", VFloat (PyFloat.of_int 4));
      ("mid", VFloat (PyFloat.of_int 12));
      ("senior", VFloat (PyFloat.of_int 30)) ] in
  let demand :=
    [ ("current_index", VInt base);
      ("trend_6m", VStr "+12%");
      ("regions", VStrList ["India"; "US"; "Remote"]) ] in
  Ok {| career := career;
        match_percent := base;
        why_match := meta_why meta;
        strengths := slice_to 5 skills;
        skill_gap := gap;
        salary_forecast := salary;
        demand_trends := demand |}.

Definition score_careers (payload : AssessmentSubmission) : result (list CareerMatch) :=
  let interests := py_set so (map lower (interests payload)) in
  let skills := py_set so (map lower (skills payload)) in
  personality <-
    PyFloat.true_div (sum (personality_answers payload))
                     (Z.max (len (personality_answers payload)) 1) ;;
  results <- for_each (score_one interests skills personality) CAREER_LIBRARY ;;
  Ok (slice_to 5 (sort_desc results)).

End Scoring.


(** ** main.py: [generate_roadmap] *)

(** schemas.py, [CareerTemplate]. *)
Record CareerTemplate : Type := {
  t_career : string;
  t_summary : string;
  t_required_skills : list string;
  t_roadmap : list (string * list string);
  t_default_actions : list string;
  t_prompts : option (list (string * string))
}.

(** Modelled from the spec: the template store, [db["careertemplate"]] of
    the [database] module, which is not part of the sources.  The store is
    the sequence of its documents; a document carries the career it is keyed
    by and whichever of the fields [generate_roadmap] reads are present in
    it.  [find_one] is [find_template] of the specification: the first
    document stored under exactly that career name, or nothing. *)
Record TemplateDoc : Type := {
  d_career : string;
  d_summary : option string;
  d_required_skills : option (list string);
  d_roadmap : option (list (string * list string));
  d_default_actions : option (list string)
}.

Definition TemplateStore : Type := list TemplateDoc.

Definition find_one (store : TemplateStore) (c : string) : option TemplateDoc :=
  find (fun d => String.eqb (d_career d) c) store.

(** The document [upsert_template] writes: [tpl.model_dump()] has every field. *)
Definition model_dump (tpl : CareerTemplate) : TemplateDoc :=
  {| d_career := t_career tpl;
     d_summary := Some (t_summary tpl);
     d_required_skills := Some (t_required_skills tpl);
     d_roadmap := Some (t_roadmap tpl);
     d_default_actions := Some (t_default_actions tpl) |}.

(** [d.get(key, default)] *)
Definition get {V : Type} (field : option V) (default : V) : V :=
  match field with
  | Some v => v
  | None => default
  end.

Fixpoint dict_get (d : list (string * string)) (k : string) (default : string) : string :=
  match d with
  | [] => default
  | (k', v) :: rest => if String.eqb k' k then v else dict_get rest k default
  end.

(** [CAREER_LIBRARY[key]] *)
Fixpoint library_item (lib : list (string * CareerMeta)) (c : string) : result CareerMeta :=
  match lib with
  | [] => Raise KeyError
  | (k, v) :: rest => if String.eqb k c then Ok v else library_item rest c
  end.

(** The request body is read for its ["career"] entry only, which [Roadmap]
    requires to be a [str]; [db] is [None] when no database is configured.
    A document that [find_one] returns is never an empty dict, so
    [if template:] asks whether one was found. *)
Definition generate_roadmap (db : option TemplateStore) (data : list (string * string))
  : result Roadmap :=
  let career := dict_get data "career" "Software Engineer" in
  let template :=
    match db with
    | Some store => find_one store career
    | None => None
    end in
  match template with
  | Some template =>
      let required := get (d_required_skills template) [] in
      let roadmap := get (d_roadmap template) [] in
      let summary := get (d_summary template) ("Roadmap for " ++ career) in
      let actions := get (d_default_actions template) [] in
      Ok {| r_career := career; r_summary := summary; r_required_skills := required;
            r_roadmap := roadmap; r_actions := actions |}
  | None =>
      fallback <- library_item CAREER_LIBRARY "Software Engineer" ;;
      let required := meta_skills (library_get CAREER_LIBRARY career fallback) in
      let roadmap :=
        [ ("Classes 8–10", ["Math foundations"; "Intro to CS"; "Logic puzzles"; "Build small projects"]);
          ("Classes 11–12", ["Choose PCM"; "Python + DSA basics"; "Hackathons"; "Git + GitHub"]);
          ("Graduation", ["Data Structures & Algorithms"; "Internship"; "System Design basics"; "Open Source"]);
          ("Certifications", ["Coursera Specialization"; "AWS Cloud Practitioner"; "Security basics"]);
          ("Portfolio", ["3-5 polished projects"; "README docs"; "Case studies"; "Personal website"]) ] in
      let summary := "A clear, stage-wise pathway to become a " ++ career ++ "." in
      let actions := ["Complete DSA 150"; "Build 2 real-world projects"; "Internship hunt"; "Leetcode 100"] in
      Ok {| r_career := career; r_summary := summary; r_required_skills := required;
            r_roadmap := roadmap; r_actions := actions |}
  end.

(** The two results [generate_roadmap] can build: from a stored document,
    and the synthesized default. *)
Definition roadmap_of_doc (career : string) (d : TemplateDoc) : Roadmap :=
  {| r_career := career;
     r_summary := get (d_summary d) ("Roadmap for " ++ career);
     r_required_skills := get (d_required_skills d) [];
     r_roadmap := get (d_roadmap d) [];
     r_actions := get (d_default_actions d) [] |}.

Definition default_stages : list (string * list string) :=
  [ ("Classes 8–10", ["Math foundations"; "Intro to CS"; "Logic puzzles"; "Build small projects"]);
    ("Classes 11–12", ["Choose PCM"; "Python + DSA basics"; "Hackathons"; "Git + GitHub"]);
    ("Graduation", ["Data Structures & Algorithms"; "Internship"; "System Design basics"; "Open Source"]);
    ("Certifications", ["Coursera Specialization"; "AWS Cloud Practitioner"; "Security basics"]);
    ("Portfolio", ["3-5 polished projects"; "README docs"; "Case studies"; "Personal website"]) ].

Definition default_roadmap (career : string) : Roadmap :=
  {| r_career := career;
     r_summary := "A clear, stage-wise pathway to become a " ++ career ++ ".";
     r_required_skills :=
       meta_skills (library_get CAREER_LIBRARY career (profile "Software Engineer"));
     r_roadmap := default_stages;
     r_actions := ["Complete DSA 150"; "Build 2 real-world projects"; "Internship hunt"; "Leetcode 100"] |}.

(** The template the store is queried for. *)
Definition requested (data : list (string * string)) : string :=
  dict_get data "career" "Software Engineer".

Definition lookup (db : option TemplateStore) (c : string) : option TemplateDoc :=
  match db with
  | Some store => find_one store c
  | None => None
  end.

(** ** Interpreters to run the model on

    [ascii_lower] is [str.lower] on ASCII text, which is all the catalog and
    the scenarios below contain.  The two set orders list the distinct
    members of a set in the order they were last added, and in the reverse
    of it. *)

Definition ascii_lower_char (c : ascii) : ascii :=
  let n := nat_of_ascii c in
  if (Nat.leb 65 n && Nat.leb n 90)%bool then ascii_of_nat (n + 32) else c.

Fixpoint ascii_lower (s : string) : string :=
  match s with
  | EmptyString => EmptyString
  | String c s' => String (ascii_lower_char c) (ascii_lower s')
  end.

Definition order_fwd : SetOrder :=
  {| py_set := nodup string_dec;
     py_set_NoDup := NoDup_nodup string_dec;
     py_set_In := nodup_In string_dec |}.

Definition order_rev : SetOrder :=
  {| py_set := fun xs => rev (nodup string_dec xs);
     py_set_NoDup := fun xs => NoDup_rev (NoDup_nodup string_dec xs);
     py_set_In := fun xs x =>
       iff_trans (iff_sym (in_rev (nodup string_dec xs) x)) (nodup_In string_dec xs x) |}.

(** A submission with the three fields the scoring reads. *)
Definition submission (i s : list string) (a : list Z) : AssessmentSubmission :=
  {| academic_performance := "";
     interests := i;
     skills := s;
     preferences := [];
     personality_answers := a;
     uploaded_docs := None;
     language := "en" |}.

(** The submission of the specification's concrete scenario. *)
Definition scenario : AssessmentSubmission :=
  submission ["code"; "data"] ["python"; "git"] [4; 4; 5].

(** ** The scoring, taken apart

    The mean and the tilt are the only steps of [score_careers] that can
    raise, and they do not depend on the profile: [personality_tilt] is
    lines 178 and 205 of main.py together, and [match_of] is what one pass
    of the loop builds once the tilt is known. *)

Definition personality_tilt (answers : list Z) : result Z :=
  personality <- PyFloat.true_div (sum answers) (Z.max (len answers) 1) ;;
  tilt_of personality.

Definition clamp (base : Z) : Z := Z.max 1 (Z.min 97 base).

Definition match_of (lower : string -> string) (so : SetOrder)
    (interests skills : list string) (t : Z) (entry : string * CareerMeta) : CareerMatch :=
  let base :=
    clamp (interest_base interests (fst entry)
           + Z.min (overlap lower so (snd entry) skills * 6) 18 + t) in
  {| career := fst entry;
     match_percent := base;
     why_match := meta_why (snd entry);
     strengths := slice_to 5 skills;
     skill_gap := filter (fun s => negb (mem (lower s) skills)) (meta_skills (snd entry));
     salary_forecast :=
       [ ("entry", VFloat (PyFloat.of_int 4));
         ("mid", VFloat (PyFloat.of_int 12));
         ("senior", VFloat (PyFloat.of_int 30)) ];
     demand_trends :=
       [ ("current_index", VInt base);
         ("trend_6m", VStr "+12%");
         ("regions", VStrList ["India"; "US"; "Remote"]) ] |}.

(** The five matches for a tilt [t], in the order [score_careers] returns
    them. *)
Definition ranked (lower : string -> string) (so : SetOrder)
    (p : AssessmentSubmission) (t : Z) : list CareerMatch :=
  sort_desc
    (map (match_of lower so
            (py_set so (map lower (interests p)))
            (py_set so (map lower (skills p))) t)
         CAREER_LIBRARY).

(** ** The specification's reading of the tilt, in exact arithmetic *)

(** The mean of the answers, the divisor floored at 1. *)
Definition personality_avg (answers : list Z) : Q :=
  (inject_Z (sum answers) / inject_Z (Z.max (len answers) 1))%Q.

(** Truncation toward zero. *)
Definition Qtrunc (q : Q) : Z := Z.quot (Qnum q) (Zpos (Qden q)).

Definition tilt_floor (answers : list Z) : Z :=
  Qfloor ((personality_avg answers - 3) * 4)%Q.

Definition tilt_trunc (answers : list Z) : Z :=
  Qtrunc ((personality_avg answers - 3) * 4)%Q.

(** The answers schemas.py describes, integers 1 to 5; here up to 50 of
    them, and possibly none. *)
Definition documented_answers (answers : list Z) : Prop :=
  Forall (fun a => 1 <= a <= 5) answers /\ (List.length answers <= 50)%nat.

(** The tilt as a function of the sum and the number of the answers, and
    the table of all sums that [n] answers between 1 and 5 can have. *)
Definition tilt_sn (s n : Z) : result Z :=
  personality <- PyFloat.true_div s (Z.max n 1) ;;
  tilt_of personality.

Definition tilt_agrees (s n : Z) : bool :=
  match tilt_sn s n with
  | Ok t =>
      (t =? Z.quot (4 * s - 12 * Z.max n 1) (Z.max n 1))
      && ((n =? 0) || ((-8 <=? t) && (t <=? 8)))
  | Raise _ => false
  end.

Definition zrange (a : Z) (k : nat) : list Z :=
  map (fun i => a + Z.of_nat i) (seq 0 k).

Definition tilt_table (bound : nat) : bool :=
  forallb (fun n => forallb (fun s => tilt_agrees s n) (zrange n (Z.to_nat (4 * n + 1))))
          (zrange 0 (S bound)).

(** ** Shapes of binary64 values *)

(** The exponent of the format's grid at magnitude [2 ^ e]. *)
Definition fexp64 : Z -> Z := fexp PyFloat.prec PyFloat.emax.

(** A zero, or a finite float with its exponent at most [E] and its
    magnitude below [2 ^ D]. *)
Definition within (E D : Z) (x : spec_float) : Prop :=
  match x with
  | S754_zero _ => True
  | S754_finite _ m e => e <= E /\ Zdigits2 (Zpos m) + e <= D
  | _ => False
  end.

(** [score_careers] with the [strengths] of every match blanked, to compare
    two runs in everything else. *)
Definition forget_strengths (m : CareerMatch) : CareerMatch :=
  {| career := career m;
     match_percent := match_percent m;
     why_match := why_match m;
     strengths := [];
     skill_gap := skill_gap m;
     salary_forecast := salary_forecast m;
     demand_trends := demand_trends m |}.

Definition map_result {A B : Type} (f : A -> B) (r : result A) : result B :=
  match r with
  | Ok a => Ok (f a)
  | Raise e => Raise e
  end.

(** The order [score_careers] leaves its matches in. *)
Definition desc (a b : CareerMatch) : Prop := match_percent a >= match_percent b.

(** [x] comes before [y] in [l]. *)
Definition before {A : Type} (l : list A) (x y : A) : Prop :=
  exists l1 l2 l3, l = (l1 ++ x :: l2 ++ y :: l3)%list.

(** * The rest of main.py

    The routes around the scoring engine and the roadmap selector, with
    what they call in the interpreter and in the libraries taken as
    parameters. *)

(** ** Failures of a route *)

Inductive Failure : Type :=
  | Uncaught (e : PyExn)
  | IndexError
  | TypeError
  | HTTPException (status_code : Z) (detail : string).

Inductive outcome (A : Type) : Type :=
  | Done (a : A)
  | Failed (f : Failure).

Arguments Done {A} a.
Arguments Failed {A} f.

(** [xs[0]] *)
Definition index0 {A : Type} (xs : list A) : outcome A :=
  match xs with
  | [] => Failed IndexError
  | x :: _ => Done x
  end.

(** [sep.join(xs)] *)
Definition join (sep : string) (xs : list string) : string := String.concat sep xs.

(** ** main.py: the interest rules as a table

    The chain of conditionals of [score_careers], read as the rule table the
    careers, their trigger tags and their bonus make up. *)

Definition boost_rules : list (string * (list string * Z)) :=
  [ ("Software Engineer", (["code"; "programming"; "software"], 25));
    ("UI/UX Designer", (["design"], 22));
    ("Data Scientist", (["data"; "math"], 24));
    ("Cybersecurity Analyst", (["security"; "network"], 20));
    ("Product Manager", (["lead"; "business"], 18)) ].

Definition rule_boost (interests : list string) (c : string) : Z :=
  match find (fun r => String.eqb (fst r) c) boost_rules with
  | Some (_, (tags, bonus)) =>
      if existsb (fun t => mem t interests) tags then bonus else 0
  | None => 0
  end.

(** ** main.py: [run_assessment] *)

Record AssessmentResult : Type := {
  matches : list CareerMatch;
  preview_summary : list (string * PyValue)
}.

(** The three highlights of the preview, for the first match. *)
Definition highlights_of (top : CareerMatch) : list string :=
  [ "Top Career: " ++ career top;
    "Skill Gap Focus: " ++
      match skill_gap top with
      | [] => "Minimal"
      | _ :: _ => join ", " (slice_to 5 (skill_gap top))
      end;
    "Steady market demand with positive 6M trend" ].

Section Assessment.

Variable lower : string -> string.
Variable so : SetOrder.

(** The state of the document store. *)
Variable DB : Type.

(** [create_document] of the [database] module, which is not part of the
    sources, at the one use [run_assessment] makes of it: it returns the
    new document's id or raises, and leaves the store in a new state. *)
Variable create_document : string -> AssessmentSubmission -> DB -> outcome string * DB.

Definition run_assessment (payload : AssessmentSubmission) (db : DB)
  : outcome AssessmentResult * DB :=
  match score_careers lower so payload with
  | Raise e => (Failed (Uncaught e), db)
  | Ok matches =>
      match index0 matches with
      | Failed f => (Failed f, db)
      | Done top =>
          let summary :=
            [ ("language", VStr (language payload));
              ("overview", VStr "Assessment complete. Top matches generated based on interests, skills, and personality alignment.");
              ("highlights", VStrList (highlights_of top)) ] in
          match create_document "assessmentsubmission" payload db with
          | (Failed f, db') => (Failed f, db')
          | (Done _, db') =>
              (Done {| matches := matches; preview_summary := summary |}, db')
          end
      end
  end.

End Assessment.

(** ** main.py: [waitlist_stats] *)

(** [d.get(key)] on a stored document *)
Fixpoint doc_get (d : list (string * PyValue)) (k : string) : option PyValue :=
  match d with
  | [] => None
  | (k', v) :: rest => if String.eqb k' k then Some v else doc_get rest k
  end.

(** [xs[-n:]] for a literal [n > 0] *)
Definition slice_last {A : Type} (n : nat) (xs : list A) : list A :=
  skipn (List.length xs - n) xs.

(** [items] is what [get_documents("waitlistentry", {}, limit=50)] returned,
    and [counted] is [count_documents({})] when there is a database. *)
Definition waitlist_stats (counted : option Z) (items : list (list (string * PyValue)))
  : Z * list (option PyValue) :=
  let total :=
    match counted with
    | Some n => n
    | None => len items
    end in
  let names := rev (slice_last 10 (map (fun i => doc_get i "name") items)) in
  (total, names).

(** ** main.py: [upsert_template] *)

(** Modelled from the spec: [update_one(filter, {"$set": fields},
    upsert=True)] on the template store.  The first document stored under
    the career takes the new fields; when there is none, a document with
    them is added. *)
Fixpoint update_one_upsert (store : TemplateStore) (c : string) (doc : TemplateDoc)
  : TemplateStore :=
  match store with
  | [] => [doc]
  | d :: rest =>
      if String.eqb (d_career d) c then doc :: rest
      else d :: update_one_upsert rest c doc
  end.

(** Without a database [db["careertemplate"]] subscripts [None]. *)
Definition upsert_template (db : option TemplateStore) (tpl : CareerTemplate)
  : outcome (list (string * bool)) * option TemplateStore :=
  match db with
  | None => (Failed TypeError, None)
  | Some store =>
      (Done [("ok", true)],
       Some (update_one_upsert store (t_career tpl) (model_dump tpl)))
  end.

(** ** main.py: [create_pdf] *)

(** What the route asks of the canvas, in order. *)
Inductive CanvasOp : Type :=
  | SetFillColorRGB (r g b : PyValue)
  | SetFont (name : string) (size : Z)
  | DrawString (x y : PyFloat.float) (text : string)
  | DrawText (x y : PyFloat.float) (text : string)
  | ShowPage
  | Save.

Record PdfRequest : Type := {
  pdf_career : option string;
  pdf_language : option string;
  pdf_roadmap : option (list (string * list string));
  pdf_summary : option string
}.

Record StreamingResponse : Type := {
  body : list CanvasOp;
  media_type : string;
  headers : list (string * string)
}.

(** A decimal literal [num/den], rounded to the nearest float. *)
Definition float_lit (num den : Z) : PyFloat.float :=
  SFdiv PyFloat.prec PyFloat.emax (PyFloat.raw num) (PyFloat.raw den).

(** [s.replace(' ', '_')] *)
Fixpoint replace_spaces (s : string) : string :=
  match s with
  | EmptyString => EmptyString
  | String c s' =>
      String (if Ascii.eqb c " " then "_"%char else c) (replace_spaces s')
  end.

(** A byte that continues a character of the UTF-8 text. *)
Definition continuation (c : ascii) : bool :=
  let n := nat_of_ascii c in (Nat.leb 128 n && Nat.ltb n 192)%bool.

(** [s[:n]]: the first [n] characters of the text. *)
Fixpoint take_chars (n : nat) (s : string) : string :=
  match s with
  | EmptyString => EmptyString
  | String c s' =>
      if continuation c then String c (take_chars n s')
      else
        match n with
        | O => EmptyString
        | S n' => String c (take_chars n' s')
        end
  end.


Section Pdf.

(** Whether the import of ReportLab succeeded. *)
Variable REPORTLAB_AVAILABLE : bool.

(** [reportlab.lib.units.cm], and the height of [A4]. *)
Variable cm : PyFloat.float.
Variable height : PyFloat.float.

(** The loop over the items of a section, from the cursor [y]. *)
Fixpoint draw_items (items : list string) (y : PyFloat.float)
  : list CanvasOp * PyFloat.float :=
  match items with
  | [] => ([], y)
  | it :: rest =>
      let '(brk, y) :=
        if SFltb y (PyFloat.mul (PyFloat.of_int 3) cm)
        then ([ShowPage], PyFloat.sub height (PyFloat.mul (PyFloat.of_int 3) cm))
        else ([], y) in
      let op := DrawString (PyFloat.mul (float_lit 25 10) cm) y ("• " ++ it) in
      let y := PyFloat.sub y (PyFloat.mul (float_lit 5 10) cm) in
      let '(ops, y) := draw_items rest y in
      ((brk ++ op :: ops)%list, y)
  end.

(** The loop over [roadmap.items()]. *)
Fixpoint draw_sections (sections : list (string * list string)) (y : PyFloat.float)
  : list CanvasOp * PyFloat.float :=
  match sections with
  | [] => ([], y)
  | (section, items) :: rest =>
      let '(brk, y) :=
        if SFltb y (PyFloat.mul (PyFloat.of_int 4) cm)
        then ([ShowPage], PyFloat.sub height (PyFloat.mul (PyFloat.of_int 3) cm))
        else ([], y) in
      let title :=
        [ SetFont "Helvetica-Bold" 13;
          SetFillColorRGB (VFloat (float_lit 26 100)) (VFloat (float_lit 56 100))
                          (VFloat (float_lit 44 100));
          DrawString (PyFloat.mul (PyFloat.of_int 2) cm) y section ] in
      let y := PyFloat.sub y (PyFloat.mul (float_lit 6 10) cm) in
      let face := [ SetFont "Helvetica" 11; SetFillColorRGB (VInt 0) (VInt 0) (VInt 0) ] in
      let '(lines, y) := draw_items items y in
      let y := PyFloat.sub y (PyFloat.mul (float_lit 4 10) cm) in
      let '(ops, y) := draw_sections rest y in
      ((brk ++ title ++ face ++ lines ++ ops)%list, y)
  end.

Definition create_pdf (data : PdfRequest) : outcome StreamingResponse :=
  if negb REPORTLAB_AVAILABLE
  then Failed (HTTPException 500 "PDF engine not available on server")
  else
    let career := get (pdf_career data) "Career Roadmap" in
    let language := get (pdf_language data) "en" in
    let roadmap := get (pdf_roadmap data) [] in
    let summary := get (pdf_summary data) "" in
    let header :=
      [ SetFillColorRGB (VFloat (float_lit 14 100)) (VFloat (float_lit 29 100)) (VInt 1);
        SetFont "Helvetica-Bold" 18;
        DrawString (PyFloat.mul (PyFloat.of_int 2) cm)
                   (PyFloat.sub height (PyFloat.mul (PyFloat.of_int 2) cm))
                   ("Pathify AI — " ++ career ++ " Roadmap ("
                    ++ (if String.eqb language "en" then "English" else "Hindi") ++ ")");
        SetFillColorRGB (VInt 0) (VInt 0) (VInt 0);
        SetFont "Helvetica" 11;
        DrawText (PyFloat.mul (PyFloat.of_int 2) cm)
                 (PyFloat.sub height (PyFloat.mul (float_lit 32 10) cm))
                 (take_chars 600 summary) ] in
    let y := PyFloat.sub height (PyFloat.mul (PyFloat.of_int 5) cm) in
    let '(sections, _) := draw_sections roadmap y in
    let headers :=
      [ ("Content-Disposition",
         "attachment; filename=" ++ replace_spaces career ++ "_roadmap.pdf") ] in
    Done {| body := (header ++ sections ++ [ShowPage; Save])%list;
            media_type := "application/pdf";
            headers := headers |}.

End Pdf.



(** Every string set in the 13 point face is drawn with the cursor not
    below 4 cm, and every string set in the 11 point face not below 3 cm;
    [size] is the size of the face in use. *)
Fixpoint clear_of_margin (cm : PyFloat.float) (size : Z) (ops : list CanvasOp) : Prop :=
  match ops with
  | [] => True
  | SetFont _ size' :: rest => clear_of_margin cm size' rest
  | DrawString _ y _ :: rest =>
      (size = 13 -> SFltb y (PyFloat.mul (PyFloat.of_int 4) cm) = false) /\
      (size = 11 -> SFltb y (PyFloat.mul (PyFloat.of_int 3) cm) = false) /\
      clear_of_margin cm size rest
  | _ :: rest => clear_of_margin cm size rest
  end.

(** ReportLab's units and page: [inch = 72.0], [cm = inch / 2.54],
    [mm = cm * 0.1], and [A4] is 210 mm by 297 mm. *)
Definition reportlab_cm : PyFloat.float :=
  SFdiv PyFloat.prec PyFloat.emax (PyFloat.of_int 72) (float_lit 254 100).

Definition reportlab_A4_height : PyFloat.float :=
  PyFloat.mul (PyFloat.of_int 297) (PyFloat.mul reportlab_cm (float_lit 1 10)).

(** * Properties *)

(** ** Sets and membership *)

Lemma mem_In (x : string) (s : list string) : mem x s = true <-> In x s.
Proof.
  unfold mem. rewrite existsb_exists. split.
  - intros [y [Hy Heq]]. apply String.eqb_eq in Heq. now subst.
  - intros H. exists x. split; [assumption | apply String.eqb_refl].
Qed.

Lemma mem_ext (x : string) (s s' : list string) :
  (forall y, In y s <-> In y s') -> mem x s = mem x s'.
Proof.
  intros H. apply eq_true_iff_eq. rewrite !mem_In. apply H.
Qed.

Lemma mem_py_set (so : SetOrder) (x : string) (xs : list string) :
  mem x (py_set so xs) = mem x xs.
Proof.
  apply mem_ext. intros y. apply py_set_In.
Qed.

Lemma py_set_Permutation (so so' : SetOrder) (xs : list string) :
  Permutation (py_set so xs) (py_set so' xs).
Proof.
  apply NoDup_Permutation; try apply py_set_NoDup.
  intros x. now rewrite !py_set_In.
Qed.

(** ** The loop and its one fallible step *)

Section ScoringFacts.

Variable lower : string -> string.
Variable so : SetOrder.

Lemma score_one_match_of interests skills personality entry :
  score_one lower so interests skills personality entry =
  (t <- tilt_of personality ;; Ok (match_of lower so interests skills t entry)).
Proof.
  destruct entry as [c meta]. unfold score_one, match_of, clamp.
  destruct (tilt_of personality); reflexivity.
Qed.

Lemma for_each_score_one interests skills personality e lib :
  for_each (score_one lower so interests skills personality) (e :: lib) =
  (t <- tilt_of personality ;;
   Ok (map (match_of lower so interests skills t) (e :: lib))).
Proof.
  revert e. induction lib as [|e' lib IH]; intros e.
  - cbn [for_each map]. rewrite score_one_match_of.
    destruct (tilt_of personality); reflexivity.
  - change (for_each ?f (e :: e' :: lib))
      with (y <- f e ;; ys <- for_each f (e' :: lib) ;; Ok (y :: ys)).
    rewrite IH, score_one_match_of.
    destruct (tilt_of personality); reflexivity.
Qed.

(** [score_careers] is the tilt, then five matches built from it, sorted. *)
Lemma score_careers_unfold (p : AssessmentSubmission) :
  score_careers lower so p =
  (t <- personality_tilt (personality_answers p) ;;
   Ok (slice_to 5 (sort_desc
         (map (match_of lower so
                 (py_set so (map lower (interests p)))
                 (py_set so (map lower (skills p))) t)
              CAREER_LIBRARY)))).
Proof.
  unfold score_careers, personality_tilt.
  destruct (PyFloat.true_div _ _) as [personality|e]; [|reflexivity].
  cbn [bind]. unfold CAREER_LIBRARY at 1. rewrite for_each_score_one.
  destruct (tilt_of personality); reflexivity.
Qed.

End ScoringFacts.

(** ** The stable descending sort *)

Lemma insert_desc_Permutation (m : CareerMatch) (l : list CareerMatch) :
  Permutation (insert_desc m l) (m :: l).
Proof.
  induction l as [|x r IH]; cbn [insert_desc].
  - apply Permutation_refl.
  - destruct (match_percent m <? match_percent x).
    + eapply perm_trans; [apply perm_skip, IH | apply perm_swap].
    + apply Permutation_refl.
Qed.

Lemma sort_desc_Permutation (l : list CareerMatch) : Permutation (sort_desc l) l.
Proof.
  induction l as [|m l IH]; cbn [sort_desc fold_right].
  - apply perm_nil.
  - eapply perm_trans; [apply insert_desc_Permutation | apply perm_skip, IH].
Qed.

Lemma sort_desc_length (l : list CareerMatch) :
  List.length (sort_desc l) = List.length l.
Proof.
  apply Permutation_length, sort_desc_Permutation.
Qed.

Lemma insert_desc_sorted (m : CareerMatch) (l : list CareerMatch) :
  StronglySorted desc l -> StronglySorted desc (insert_desc m l).
Proof.
  induction 1 as [|x r Hr IH Hx]; cbn [insert_desc].
  - constructor; constructor.
  - destruct (match_percent m <? match_percent x) eqn:E.
    + apply Z.ltb_lt in E. constructor; [exact IH|].
      apply (Permutation_Forall (Permutation_sym (insert_desc_Permutation m r))).
      constructor; [unfold desc; lia | exact Hx].
    + apply Z.ltb_ge in E. constructor; [constructor; assumption|].
      constructor; [unfold desc; lia|].
      eapply Forall_impl; [|exact Hx]. unfold desc. intros b Hb. lia.
Qed.

Lemma sort_desc_sorted (l : list CareerMatch) : StronglySorted desc (sort_desc l).
Proof.
  induction l as [|m l IH]; cbn [sort_desc fold_right].
  - constructor.
  - apply insert_desc_sorted, IH.
Qed.

(** Sorting moves through a map that leaves the key alone. *)
Lemma insert_desc_map (f : CareerMatch -> CareerMatch) (m : CareerMatch)
    (l : list CareerMatch) :
  (forall x, match_percent (f x) = match_percent x) ->
  map f (insert_desc m l) = insert_desc (f m) (map f l).
Proof.
  intros Hf. induction l as [|x r IH]; cbn [insert_desc map].
  - reflexivity.
  - rewrite !Hf. destruct (match_percent m <? match_percent x); cbn [map].
    + now rewrite IH.
    + reflexivity.
Qed.

Lemma sort_desc_map (f : CareerMatch -> CareerMatch) (l : list CareerMatch) :
  (forall x, match_percent (f x) = match_percent x) ->
  map f (sort_desc l) = sort_desc (map f l).
Proof.
  intros Hf. induction l as [|m l IH]; cbn [sort_desc fold_right map].
  - reflexivity.
  - fold (sort_desc l). fold (sort_desc (map f l)).
    now rewrite insert_desc_map, IH.
Qed.

(** *** Order of appearance *)

Lemma before_cons {A : Type} (a x y : A) (l : list A) :
  before (a :: l) x y <-> (a = x /\ In y l) \/ before l x y.
Proof.
  unfold before. split.
  - intros [l1 [l2 [l3 H]]]. destruct l1 as [|b l1]; cbn [app] in H.
    + injection H as -> ->. left. split; [reflexivity|].
      apply in_or_app. right. now left.
    + injection H as -> ->. right. now exists l1, l2, l3.
  - intros [[-> Hy] | [l1 [l2 [l3 ->]]]].
    + apply in_split in Hy as [l2 [l3 ->]]. now exists [], l2, l3.
    + now exists (a :: l1), l2, l3.
Qed.

Lemma before_nil {A : Type} (x y : A) : ~ before [] x y.
Proof.
  intros [l1 [l2 [l3 H]]]. now destruct l1.
Qed.

Lemma before_map {A B : Type} (f : A -> B) (l : list A) (x y : A) :
  before l x y -> before (map f l) (f x) (f y).
Proof.
  intros [l1 [l2 [l3 ->]]].
  exists (map f l1), (map f l2), (map f l3).
  now rewrite map_app; cbn [map]; rewrite map_app.
Qed.

Lemma before_insert_desc (m x y : CareerMatch) (l : list CareerMatch) :
  before (insert_desc m l) x y ->
  (x = m /\ In y l) \/ before l x y \/
  (y = m /\ In x l /\ match_percent m < match_percent x).
Proof.
  induction l as [|a r IH]; cbn [insert_desc].
  - intros H. apply before_cons in H as [[_ []] | H]. now apply before_nil in H.
  - destruct (match_percent m <? match_percent a) eqn:E.
    + apply Z.ltb_lt in E. intros H. apply before_cons in H as [[-> Hy] | H].
      * apply (Permutation_in _ (insert_desc_Permutation m r)) in Hy.
        destruct Hy as [<- | Hy].
        -- right. right. repeat split; [now left | exact E].
        -- right. left. apply before_cons. now left.
      * destruct (IH H) as [[-> Hy] | [Hb | [-> [Hx Hlt]]]].
        -- left. split; [reflexivity | now right].
        -- right. left. apply before_cons. now right.
        -- right. right. repeat split; [now right | exact Hlt].
    + intros H. apply before_cons in H as [[<- Hy] | H].
      * left. now split.
      * right. now left.
Qed.

(** Equal keys keep the order they had before the sort. *)
Lemma sort_desc_stable (l : list CareerMatch) (x y : CareerMatch) :
  before (sort_desc l) x y -> match_percent x = match_percent y -> before l x y.
Proof.
  intros H Heq. induction l as [|a l IH]; cbn [sort_desc fold_right] in H.
  - now apply before_nil in H.
  - fold (sort_desc l) in H.
    apply before_insert_desc in H as [[-> Hy] | [Hb | [-> [_ Hlt]]]].
    + apply before_cons. left. split; [reflexivity|].
      apply (Permutation_in _ (sort_desc_Permutation l)), Hy.
    + apply before_cons. right. now apply IH.
    + lia.
Qed.

(** ** The personality tilt *)

Lemma sum_acc (xs : list Z) (acc : Z) : fold_left Z.add xs acc = acc + sum xs.
Proof.
  unfold sum. revert acc. induction xs as [|x xs IH]; intros acc; cbn [fold_left].
  - lia.
  - rewrite (IH (acc + x)), (IH (0 + x)). lia.
Qed.

Lemma sum_cons (x : Z) (xs : list Z) : sum (x :: xs) = x + sum xs.
Proof.
  unfold sum at 1. cbn [fold_left]. rewrite sum_acc. lia.
Qed.

Lemma len_cons {A : Type} (x : A) (xs : list A) : len (x :: xs) = 1 + len xs.
Proof.
  unfold len. cbn [List.length]. lia.
Qed.

Lemma sum_between (xs : list Z) :
  Forall (fun a => 1 <= a <= 5) xs -> len xs <= sum xs <= 5 * len xs.
Proof.
  induction 1 as [|x xs Hx _ IH].
  - unfold sum, len. cbn. lia.
  - rewrite sum_cons, len_cons. lia.
Qed.

Lemma In_zrange (a x : Z) (k : nat) :
  a <= x < a + Z.of_nat k -> In x (zrange a k).
Proof.
  intros H. unfold zrange. apply in_map_iff.
  exists (Z.to_nat (x - a)). split; [lia|]. apply in_seq. lia.
Qed.

Lemma tilt_table_sound (bound : nat) (s n : Z) :
  tilt_table bound = true ->
  0 <= n <= Z.of_nat bound -> n <= s <= 5 * n ->
  exists t, tilt_sn s n = Ok t /\
            t = Z.quot (4 * s - 12 * Z.max n 1) (Z.max n 1) /\
            (n <> 0 -> -8 <= t <= 8).
Proof.
  intros H Hn Hs. unfold tilt_table in H. rewrite forallb_forall in H.
  specialize (H n (In_zrange 0 n (S bound) ltac:(lia))).
  rewrite forallb_forall in H.
  specialize (H s (In_zrange n s (Z.to_nat (4 * n + 1)) ltac:(lia))).
  unfold tilt_agrees in H. destruct (tilt_sn s n) as [t|e]; [|discriminate].
  apply andb_prop in H as [H Hb].
  exists t. split; [reflexivity|]. split; [now apply Z.eqb_eq|].
  intros Hn0. apply orb_prop in Hb as [Hb | Hb]; [lia|].
  apply andb_prop in Hb. lia.
Qed.

Lemma tilt_table_checked : tilt_table 50 = true.
Proof.
  vm_compute. reflexivity.
Qed.

Lemma tilt_trunc_quot (answers : list Z) :
  tilt_trunc answers =
  Z.quot (4 * sum answers - 12 * Z.max (len answers) 1) (Z.max (len answers) 1).
Proof.
  unfold tilt_trunc, personality_avg, Qtrunc.
  assert (Hpos : 0 < Z.max (len answers) 1) by lia.
  destruct (Z.max (len answers) 1) as [|n|n]; try lia.
  cbn [Qdiv Qinv Qmult Qminus Qplus Qopp inject_Z Qnum Qden].
  f_equal; lia.
Qed.

(** On the documented answers the binary64 computation is exact enough:
    the tilt is the exact product truncated toward zero, and it is within
    -8..8 unless there are no answers. *)
Lemma personality_tilt_documented (answers : list Z) :
  documented_answers answers ->
  personality_tilt answers = Ok (tilt_trunc answers) /\
  (answers <> [] -> -8 <= tilt_trunc answers <= 8).
Proof.
  intros [Hall Hlen]. pose proof (sum_between answers Hall) as Hsum.
  destruct (tilt_table_sound 50 (sum answers) (len answers) tilt_table_checked)
    as [t [Ht [Hq Hb]]]; [unfold len; lia | exact Hsum |].
  rewrite tilt_trunc_quot, <- Hq. split; [exact Ht|].
  intros Hne. apply Hb. destruct answers; [congruence | rewrite len_cons; unfold len; lia].
Qed.

Lemma personality_tilt_empty : personality_tilt [] = Ok (-12).
Proof.
  vm_compute. reflexivity.
Qed.

(** ** Binary64 arithmetic: the tilt does not overflow

    Bounds on the exponent and the magnitude of what [SFdiv], [SFsub] and
    [SFmul] return, followed through division, subtraction of 3 and
    multiplication by 4. *)

Lemma fexp64_eq (e : Z) : fexp64 e = Z.max (e - 53) (-1074).
Proof.
  reflexivity.
Qed.

Lemma digits2_pos_size (p : positive) : digits2_pos p = Pos.size p.
Proof.
  induction p; cbn; congruence.
Qed.

Lemma Zdigits2_pos (p : positive) : Zdigits2 (Zpos p) = Z.log2 (Zpos p) + 1.
Proof.
  cbn [Zdigits2]. rewrite digits2_pos_size. destruct p; cbn [Pos.size Z.log2]; lia.
Qed.

Lemma Zdigits2_nonneg (m : Z) : 0 <= Zdigits2 m.
Proof.
  destruct m; cbn; lia.
Qed.

(** The number of digits of a natural number, by its size. *)
Lemma Zdigits2_le (m k : Z) : 0 <= m -> 0 <= k -> (Zdigits2 m <= k <-> m < 2 ^ k).
Proof.
  intros Hm Hk. destruct m as [|p|p]; try lia.
  - cbn [Zdigits2]. split; intros _; [apply Z.pow_pos_nonneg; lia | exact Hk].
  - rewrite Zdigits2_pos, (Z.log2_lt_pow2 (Zpos p) k) by lia. lia.
Qed.

Lemma Zdigits2_lt_pow (m : Z) : 0 <= m -> m < 2 ^ Zdigits2 m.
Proof.
  intros Hm. apply Zdigits2_le; [exact Hm | apply Zdigits2_nonneg | lia].
Qed.

Lemma Zdigits2_mono (a b : Z) : 0 <= a <= b -> Zdigits2 a <= Zdigits2 b.
Proof.
  intros H. apply Zdigits2_le; [lia | apply Zdigits2_nonneg|].
  pose proof (Zdigits2_lt_pow b). lia.
Qed.

Lemma Zdigits2_mul_pow2 (m k : Z) : 0 <= m -> 0 <= k -> Zdigits2 (m * 2 ^ k) <= Zdigits2 m + k.
Proof.
  intros Hm Hk. pose proof (Zdigits2_nonneg m).
  apply Zdigits2_le; [apply Z.mul_nonneg_nonneg; [lia | apply Z.pow_nonneg; lia] | lia |].
  rewrite Z.pow_add_r by lia. apply Z.mul_lt_mono_pos_r; [apply Z.pow_pos_nonneg; lia|].
  now apply Zdigits2_lt_pow.
Qed.

Lemma Zdigits2_succ (m : Z) : 0 <= m -> Zdigits2 (m + 1) <= Zdigits2 m + 1.
Proof.
  intros Hm. pose proof (Zdigits2_nonneg m). apply Zdigits2_le; [lia | lia |].
  rewrite Z.pow_add_r by lia. pose proof (Zdigits2_lt_pow m Hm). lia.
Qed.

Lemma Zdigits2_shiftr (m k : Z) : 0 <= m -> 0 <= k ->
  Zdigits2 (Z.shiftr m k) <= Z.max 0 (Zdigits2 m - k).
Proof.
  intros Hm Hk. assert (0 <= Z.shiftr m k) by now apply Z.shiftr_nonneg.
  apply Zdigits2_le; [assumption | lia |].
  rewrite Z.shiftr_div_pow2 by lia.
  pose proof (Zdigits2_lt_pow m Hm) as Hlt. pose proof (Zdigits2_nonneg m).
  assert (0 < 2 ^ k) by (apply Z.pow_pos_nonneg; lia).
  apply Z.div_lt_upper_bound; [assumption|].
  rewrite <- Z.pow_add_r by lia.
  eapply Z.lt_le_trans; [exact Hlt|]. apply Z.pow_le_mono_r; lia.
Qed.

(** Shifting a significand to the right. *)
Lemma shr_1_m (mrs : shr_record) :
  0 <= shr_m mrs -> shr_m (shr_1 mrs) = Z.div2 (shr_m mrs).
Proof.
  destruct mrs as [m r s]. cbn [shr_m]. intros Hm.
  destruct m as [|[p|p|]|p]; try lia; reflexivity.
Qed.

Lemma iter_pos_shr_1_m (p : positive) (mrs : shr_record) :
  0 <= shr_m mrs ->
  shr_m (iter_pos shr_1 p mrs) = Z.shiftr (shr_m mrs) (Zpos p).
Proof.
  revert mrs. induction p as [p IH|p IH|]; intros mrs Hm; cbn [iter_pos].
  - assert (H1 : 0 <= shr_m (shr_1 mrs))
      by (rewrite shr_1_m, Z.div2_spec by exact Hm; now apply Z.shiftr_nonneg).
    assert (H2 : 0 <= shr_m (iter_pos shr_1 p (shr_1 mrs)))
      by (rewrite IH by exact H1; now apply Z.shiftr_nonneg).
    rewrite IH, IH, shr_1_m, Z.div2_spec, !Z.shiftr_shiftr by (assumption || lia).
    f_equal. lia.
  - assert (H2 : 0 <= shr_m (iter_pos shr_1 p mrs))
      by (rewrite IH by exact Hm; now apply Z.shiftr_nonneg).
    rewrite IH, IH, Z.shiftr_shiftr by (assumption || lia).
    f_equal. lia.
  - rewrite shr_1_m, Z.div2_spec by exact Hm. reflexivity.
Qed.

Lemma shr_record_of_loc_m (m : Z) (l : location) : shr_m (shr_record_of_loc m l) = m.
Proof.
  destruct l as [|[| |]]; reflexivity.
Qed.

Lemma shr_fexp_bounds (m e : Z) (l : location) :
  0 <= m ->
  0 <= shr_m (fst (shr_fexp PyFloat.prec PyFloat.emax m e l)) /\
  snd (shr_fexp PyFloat.prec PyFloat.emax m e l) = Z.max e (fexp64 (Zdigits2 m + e)) /\
  Zdigits2 (shr_m (fst (shr_fexp PyFloat.prec PyFloat.emax m e l)))
    + snd (shr_fexp PyFloat.prec PyFloat.emax m e l)
  <= Z.max (snd (shr_fexp PyFloat.prec PyFloat.emax m e l)) (Zdigits2 m + e).
Proof.
  intros Hm. unfold shr_fexp, shr. fold fexp64.
  destruct (fexp64 (Zdigits2 m + e) - e) as [|k|k] eqn:Ek; cbn [fst snd].
  - rewrite shr_record_of_loc_m. lia.
  - rewrite iter_pos_shr_1_m by (rewrite shr_record_of_loc_m; exact Hm).
    rewrite shr_record_of_loc_m.
    pose proof (Zdigits2_shiftr m (Zpos k) Hm ltac:(lia)).
    split; [now apply Z.shiftr_nonneg | lia].
  - rewrite shr_record_of_loc_m. lia.
Qed.

Lemma round_nearest_even_bounds (m : Z) (l : location) :
  m <= round_nearest_even m l <= m + 1.
Proof.
  unfold round_nearest_even. destruct l as [|[| |]]; try lia.
  destruct (Z.even m); lia.
Qed.

Lemma binary_round_aux_within (sx : bool) (mx ex : Z) (lx : location) (E D : Z) :
  0 <= mx -> ex <= E -> Zdigits2 mx + ex <= D ->
  -1074 <= E -> D - 52 <= E -> E <= 971 ->
  within E (Z.max E D + 1) (binary_round_aux PyFloat.prec PyFloat.emax sx mx ex lx).
Proof.
  intros Hm He HD HE1 HE2 HE3. unfold binary_round_aux.
  pose proof (shr_fexp_bounds mx ex lx Hm) as [H1 [H2 H3]].
  destruct (shr_fexp PyFloat.prec PyFloat.emax mx ex lx) as [mrs' e'].
  cbn [fst snd] in H1, H2, H3.
  pose proof (round_nearest_even_bounds (shr_m mrs') (loc_of_shr_record mrs')) as Hr.
  set (m1 := round_nearest_even (shr_m mrs') (loc_of_shr_record mrs')) in *.
  assert (Hm1 : 0 <= m1) by lia.
  assert (Hd1 : Zdigits2 m1 <= Zdigits2 (shr_m mrs') + 1).
  { etransitivity; [apply (Zdigits2_mono m1 (shr_m mrs' + 1)); lia|].
    now apply Zdigits2_succ. }
  pose proof (shr_fexp_bounds m1 e' loc_Exact Hm1) as [G1 [G2 G3]].
  destruct (shr_fexp PyFloat.prec PyFloat.emax m1 e' loc_Exact) as [mrs'' e''].
  cbn [fst snd] in G1, G2, G3.
  unfold fexp64 in *. rewrite fexp64_eq in *.
  destruct (shr_m mrs'') as [|m|m] eqn:Em; cbn [within]; try lia.
  replace (e'' <=? PyFloat.emax - PyFloat.prec) with true
    by (symmetry; apply Z.leb_le; unfold PyFloat.emax, PyFloat.prec; lia).
  cbn [within]. lia.
Qed.

Lemma scaled_lt_pow2 (m k d : Z) :
  0 <= m -> 0 <= k -> Zdigits2 m + k <= d -> m * 2 ^ k < 2 ^ d.
Proof.
  intros Hm Hk Hd. pose proof (Zdigits2_nonneg m).
  apply Zdigits2_le; [apply Z.mul_nonneg_nonneg; [lia | apply Z.pow_nonneg; lia] | lia |].
  pose proof (Zdigits2_mul_pow2 m k Hm Hk). lia.
Qed.

Lemma iter_xO (m d : positive) : Zpos (Pos.iter xO m d) = Zpos m * 2 ^ Zpos d.
Proof.
  induction d as [|d IH] using Pos.peano_ind.
  - cbn [Pos.iter]. lia.
  - rewrite Pos.iter_succ, Pos2Z.inj_succ, Z.pow_succ_r by lia.
    rewrite Pos2Z.inj_xO, IH. lia.
Qed.

Lemma shl_align_fst (mx : positive) (ex ex' : Z) :
  ex' <= ex -> Zpos (fst (shl_align mx ex ex')) = Zpos mx * 2 ^ (ex - ex').
Proof.
  intros H. unfold shl_align. destruct (ex' - ex) as [|d|d] eqn:E; cbn [fst]; try lia.
  - replace (ex - ex') with 0 by lia. lia.
  - rewrite iter_xO. f_equal. f_equal. lia.
Qed.

Lemma shl_align_bounds (mx : positive) (ex ex' : Z) :
  snd (shl_align mx ex ex') <= ex /\
  Zdigits2 (Zpos (fst (shl_align mx ex ex'))) + snd (shl_align mx ex ex')
  <= Zdigits2 (Zpos mx) + ex.
Proof.
  unfold shl_align. destruct (ex' - ex) as [|d|d] eqn:E; cbn [fst snd]; try lia.
  rewrite iter_xO.
  pose proof (Zdigits2_mul_pow2 (Zpos mx) (Zpos d) ltac:(lia) ltac:(lia)). lia.
Qed.

Lemma binary_round_within (sx : bool) (mx : positive) (ex E D : Z) :
  ex <= E -> Zdigits2 (Zpos mx) + ex <= D ->
  -1074 <= E -> D - 52 <= E -> E <= 971 ->
  within E (Z.max E D + 1) (binary_round PyFloat.prec PyFloat.emax sx mx ex).
Proof.
  intros He HD HE1 HE2 HE3. unfold binary_round.
  pose proof (shl_align_bounds mx ex
    (fexp PyFloat.prec PyFloat.emax (Zpos (digits2_pos mx) + ex))) as [H1 H2].
  destruct (shl_align mx ex _) as [mz ez]. cbn [fst snd] in H1, H2.
  apply binary_round_aux_within; lia.
Qed.

Lemma binary_normalize_within (z e : Z) (szero : bool) (E D : Z) :
  e <= E -> Zdigits2 (Z.abs z) + e <= D ->
  -1074 <= E -> D - 52 <= E -> E <= 971 ->
  within E (Z.max E D + 1) (binary_normalize PyFloat.prec PyFloat.emax z e szero).
Proof.
  intros He HD HE1 HE2 HE3. unfold binary_normalize.
  destruct z as [|p|p]; [exact I | |]; now apply binary_round_within.
Qed.

Lemma SFdiv_core_bounds (pa pb : positive) :
  let r := SFdiv_core_binary PyFloat.prec PyFloat.emax (Zpos pa) 0 (Zpos pb) 0 in
  0 <= fst (fst r) /\ snd (fst r) <= 0 /\
  Zdigits2 (fst (fst r)) + snd (fst r) <= Zdigits2 (Zpos pa).
Proof.
  unfold SFdiv_core_binary.
  set (e' := Z.min _ _).
  assert (He' : e' <= 0) by (unfold e'; lia).
  set (m' := match 0 - 0 - e' with Z0 => Zpos pa | Zpos _ => Z.shiftl (Zpos pa) (0 - 0 - e') | Zneg _ => 0 end).
  assert (Hm' : m' = Zpos pa * 2 ^ (- e')).
  { unfold m'. destruct (0 - 0 - e') as [|k|k] eqn:Ek; try lia.
    - replace (- e') with 0 by lia. lia.
    - rewrite Z.shiftl_mul_pow2 by lia. f_equal. f_equal. lia. }
  pose proof (Z_div_mod m' (Zpos pb) ltac:(lia)) as Hdm.
  destruct (Z.div_eucl m' (Zpos pb)) as [q r]. cbn [fst snd].
  destruct Hdm as [Heq Hr].
  assert (Hpow : 0 < 2 ^ (- e')) by (apply Z.pow_pos_nonneg; lia).
  assert (Hq0 : 0 <= q) by nia.
  assert (Hqm : q <= m') by nia.
  split; [exact Hq0|]. split; [exact He'|].
  pose proof (Zdigits2_mono q m' ltac:(lia)).
  pose proof (Zdigits2_mul_pow2 (Zpos pa) (- e') ltac:(lia) ltac:(lia)).
  rewrite <- Hm' in *. lia.
Qed.

Lemma true_div_within (a b : Z) :
  0 < b -> Z.abs a < 2 ^ 1000 ->
  exists q, PyFloat.true_div a b = Ok q /\ within 948 1001 q.
Proof.
  intros Hb Ha. unfold PyFloat.true_div.
  replace (b =? 0) with false by (symmetry; apply Z.eqb_neq; lia).
  destruct b as [|pb|pb]; try lia.
  assert (H : within 948 1001 (SFdiv PyFloat.prec PyFloat.emax (PyFloat.raw a) (PyFloat.raw (Zpos pb)))).
  { destruct a as [|pa|pa]; cbn [PyFloat.raw SFdiv]; [exact I | |].
    all: pose proof (SFdiv_core_bounds pa pb) as [H1 [H2 H3]].
    all: destruct (SFdiv_core_binary _ _ _ _ _ _) as [[mz ez] lz].
    all: cbn [fst snd] in H1, H2, H3.
    all: assert (Hd : Zdigits2 (Zpos pa) <= 1000) by (apply Zdigits2_le; lia).
    all: apply (binary_round_aux_within _ mz ez lz 948 1000); lia. }
  destruct (SFdiv PyFloat.prec PyFloat.emax (PyFloat.raw a) (PyFloat.raw (Zpos pb)))
    as [sq| | |sq mq eq]; cbn [within] in H; try contradiction.
  - exists (S754_zero sq). now split.
  - exists (S754_finite sq mq eq). now split.
Qed.

Lemma sub_3_within (p : spec_float) :
  within 948 1001 p -> within 950 1003 (PyFloat.sub p (PyFloat.of_int 3)).
Proof.
  change (PyFloat.of_int 3) with (S754_finite false 6755399441055744 (-51)).
  unfold PyFloat.sub. destruct p as [s| | |s m e]; cbn [within SFsub]; try contradiction.
  - intros _. cbn. lia.
  - intros [He HD].
    set (ez := Z.min e (-51)).
    rewrite !shl_align_fst by (unfold ez; lia).
    apply (binary_normalize_within _ ez false 950 1002); try lia.
    assert (Hz : 0 <= 1002 - ez) by (unfold ez; lia).
    match goal with
    | |- Zdigits2 ?z + _ <= _ => enough (Zdigits2 z <= 1002 - ez) by lia
    end.
    apply Zdigits2_le; [lia | exact Hz |].
    pose proof (scaled_lt_pow2 (Zpos m) (e - ez) (1001 - ez) ltac:(lia)
                  ltac:(unfold ez; lia) ltac:(lia)) as HA.
    pose proof (scaled_lt_pow2 6755399441055744 (-51 - ez) (1001 - ez) ltac:(lia)
                  ltac:(unfold ez; lia)
                  ltac:(change (Zdigits2 6755399441055744) with 53; unfold ez; lia)) as HB.
    replace (1002 - ez) with (Z.succ (1001 - ez)) by lia.
    rewrite Z.pow_succ_r by (unfold ez; lia).
    destruct s; cbn [cond_Zopp]; lia.
Qed.

Lemma mul_4_within (d : spec_float) :
  within 950 1003 d -> within 953 1006 (PyFloat.mul d (PyFloat.of_int 4)).
Proof.
  change (PyFloat.of_int 4) with (S754_finite false 4503599627370496 (-50)).
  unfold PyFloat.mul. destruct d as [s| | |s m e]; cbn [within SFmul]; try contradiction.
  - intros _. exact I.
  - intros [He HD].
    apply (binary_round_aux_within _ _ _ _ 953 1005); try lia.
    rewrite Pos2Z.inj_mul. change (Zpos 4503599627370496) with (2 ^ 52).
    pose proof (Zdigits2_mul_pow2 (Zpos m) 52 ltac:(lia) ltac:(lia)). lia.
Qed.

Lemma to_int_within (E D : Z) (x : spec_float) :
  within E D x -> exists t, PyFloat.to_int x = Ok t.
Proof.
  destruct x; cbn [within PyFloat.to_int]; intros H; try contradiction; eexists; reflexivity.
Qed.

(** The tilt is computed without overflow for every sum of answers below
    2^1000 in absolute value. *)
Lemma tilt_sn_returns (s n : Z) :
  Z.abs s < 2 ^ 1000 -> exists t, tilt_sn s n = Ok t.
Proof.
  intros Hs. unfold tilt_sn.
  destruct (true_div_within s (Z.max n 1) ltac:(lia) Hs) as [q [-> Hq]].
  cbn [bind]. unfold tilt_of.
  apply (to_int_within 953 1006), mul_4_within, sub_3_within, Hq.
Qed.

Lemma personality_tilt_returns (answers : list Z) :
  Z.abs (sum answers) < 2 ^ 1000 -> exists t, personality_tilt answers = Ok t.
Proof.
  apply tilt_sn_returns.
Qed.

(** ** What [score_careers] returns *)

Section Returned.

Variable lower : string -> string.
Variable so : SetOrder.
Variable p : AssessmentSubmission.

Lemma ranked_Permutation (t : Z) :
  Permutation (ranked lower so p t)
    (map (match_of lower so
            (py_set so (map lower (interests p)))
            (py_set so (map lower (skills p))) t)
         CAREER_LIBRARY).
Proof.
  apply sort_desc_Permutation.
Qed.

Lemma ranked_length (t : Z) : List.length (ranked lower so p t) = 5%nat.
Proof.
  unfold ranked. now rewrite sort_desc_length, length_map.
Qed.

Lemma score_careers_ranked :
  score_careers lower so p =
  (t <- personality_tilt (personality_answers p) ;; Ok (ranked lower so p t)).
Proof.
  rewrite score_careers_unfold.
  destruct (personality_tilt (personality_answers p)) as [t|e]; [|reflexivity].
  cbn [bind]. f_equal. fold (ranked lower so p t).
  rewrite <- (ranked_length t) at 1. apply firstn_all.
Qed.

Lemma score_careers_Ok (l : list CareerMatch) :
  score_careers lower so p = Ok l <->
  exists t, personality_tilt (personality_answers p) = Ok t /\ l = ranked lower so p t.
Proof.
  rewrite score_careers_ranked. split.
  - destruct (personality_tilt (personality_answers p)) as [t|e]; cbn [bind].
    + intros [= <-]. now exists t.
    + discriminate.
  - intros [t [-> ->]]. reflexivity.
Qed.

(** Every returned match was built from a profile of the catalog, and
    every profile has its match. *)
Lemma ranked_In (t : Z) (m : CareerMatch) :
  In m (ranked lower so p t) <->
  exists entry, In entry CAREER_LIBRARY /\
    m = match_of lower so
          (py_set so (map lower (interests p)))
          (py_set so (map lower (skills p))) t entry.
Proof.
  split.
  - intros H. apply (Permutation_in _ (ranked_Permutation t)) in H.
    apply in_map_iff in H as [entry [<- Hin]]. now exists entry.
  - intros [entry [Hin ->]].
    apply (Permutation_in _ (Permutation_sym (ranked_Permutation t))).
    now apply in_map.
Qed.

End Returned.

Lemma clamp_range (b : Z) : 1 <= clamp b <= 97.
Proof.
  unfold clamp. lia.
Qed.

(** C1, as amended.  Whatever list [score_careers] returns has exactly 5
    matches, one for each profile of the catalog, each with [match_percent]
    within 1..97; and it does return a list for every submission whose
    personality answers sum to less than 2^1000 in absolute value, which
    covers the documented answers 1 to 5.  Beyond the binary64 range the
    mean or the tilt overflows, and the call raises. *)
Theorem score_careers_five_in_range (lower : string -> string) (so : SetOrder)
    (p : AssessmentSubmission) :
  (forall l, score_careers lower so p = Ok l ->
     List.length l = 5%nat /\
     Permutation (map career l) (map fst CAREER_LIBRARY) /\
     Forall (fun m => 1 <= match_percent m <= 97) l) /\
  (Z.abs (sum (personality_answers p)) < 2 ^ 1000 ->
     exists l, score_careers lower so p = Ok l).
Proof.
  split.
  - intros l Hl. apply score_careers_Ok in Hl as [t [_ ->]]. split; [|split].
    + apply ranked_length.
    + eapply perm_trans; [apply Permutation_map, ranked_Permutation|].
      rewrite map_map. apply Permutation_refl.
    + apply Forall_forall. intros m Hm.
      apply ranked_In in Hm as [entry [_ ->]]. cbn [match_of match_percent].
      apply clamp_range.
  - intros Hsum. apply personality_tilt_returns in Hsum as [t Ht].
    exists (ranked lower so p t). apply score_careers_Ok. now exists t.
Qed.

Lemma score_careers_five_in_range_witness :
  exists l,
    score_careers ascii_lower order_fwd
      (submission ["design"] ["Figma"] [1; 2; 3; 4; 5; 1; 2; 3; 4; 5]) = Ok l /\
    List.length l = 5%nat /\
    Permutation (map career l) (map fst CAREER_LIBRARY) /\
    Forall (fun m => 1 <= match_percent m <= 97) l.
Proof.
  destruct (score_careers_five_in_range ascii_lower order_fwd
              (submission ["design"] ["Figma"] [1; 2; 3; 4; 5; 1; 2; 3; 4; 5]))
    as [Hsome Hret].
  destruct Hret as [l Hl].
  - reflexivity.
  - exists l. split; [exact Hl | exact (Hsome l Hl)].
Defined.

(** C1, as stated, fails: a single answer of 2^1024 is a well-formed
    [List[int]], its mean is too large for a float, and [score_careers]
    raises instead of returning five matches. *)
Lemma score_careers_can_raise :
  ~ exists l,
      score_careers ascii_lower order_fwd (submission [] [] [2 ^ 1024]) = Ok l /\
      List.length l = 5%nat /\ Forall (fun m => 1 <= match_percent m <= 97) l.
Proof.
  intros [l [H _]]. vm_compute in H. discriminate H.
Qed.

(** C2.  The list [score_careers] returns is in descending order of
    [match_percent], and two matches of equal [match_percent] appear in the
    order in which their careers appear in the catalog. *)
Theorem score_careers_sorted_stable (lower : string -> string) (so : SetOrder)
    (p : AssessmentSubmission) (l : list CareerMatch) :
  score_careers lower so p = Ok l ->
  StronglySorted desc l /\
  (forall a b, before l a b -> match_percent a = match_percent b ->
     before (map fst CAREER_LIBRARY) (career a) (career b)).
Proof.
  intros Hl. apply score_careers_Ok in Hl as [t [_ ->]]. split.
  - apply sort_desc_sorted.
  - intros a b Hab Heq. apply sort_desc_stable in Hab; [|exact Heq].
    apply (before_map career) in Hab. rewrite map_map in Hab. exact Hab.
Qed.

Lemma score_careers_sorted_stable_witness :
  exists l,
    score_careers ascii_lower order_fwd
      (submission ["code"; "data"] ["python"; "git"] [4; 4; 5]) = Ok l /\
    StronglySorted desc l /\
    (forall a b, before l a b -> match_percent a = match_percent b ->
       before (map fst CAREER_LIBRARY) (career a) (career b)).
Proof.
  eexists. split.
  - vm_compute. reflexivity.
  - apply (score_careers_sorted_stable ascii_lower order_fwd
             (submission ["code"; "data"] ["python"; "git"] [4; 4; 5])).
    vm_compute. reflexivity.
Defined.

(** ** What does not depend on the order of a set *)

Lemma Permutation_filter {A : Type} (f : A -> bool) (l l' : list A) :
  Permutation l l' -> Permutation (filter f l) (filter f l').
Proof.
  induction 1 as [|x l l' _ IH|x y l|l l' l'' _ IH1 _ IH2]; cbn [filter].
  - apply perm_nil.
  - destruct (f x); [apply perm_skip|]; exact IH.
  - destruct (f x), (f y); try apply Permutation_refl. apply perm_swap.
  - eapply perm_trans; eassumption.
Qed.

Lemma interest_base_ext (s s' : list string) (c : string) :
  (forall y, In y s <-> In y s') -> interest_base s c = interest_base s' c.
Proof.
  intros H. assert (E : forall x, mem x s = mem x s')
    by (intros x; now apply mem_ext).
  unfold interest_base. now rewrite !E.
Qed.

Lemma overlap_ext (lower : string -> string) (so so' : SetOrder)
    (meta : CareerMeta) (sk sk' : list string) :
  (forall y, In y sk <-> In y sk') ->
  overlap lower so meta sk = overlap lower so' meta sk'.
Proof.
  intros H. unfold overlap, len, intersection. f_equal.
  rewrite (filter_ext (fun x => mem x sk) (fun x => mem x sk'))
    by (intros x; now apply mem_ext).
  apply Permutation_length, Permutation_filter, py_set_Permutation.
Qed.

Lemma match_of_forget (lower : string -> string) (so so' : SetOrder)
    (xs ys : list string) (t : Z) (entry : string * CareerMeta) :
  forget_strengths (match_of lower so (py_set so xs) (py_set so ys) t entry) =
  forget_strengths (match_of lower so' (py_set so' xs) (py_set so' ys) t entry).
Proof.
  assert (Hx : forall y, In y (py_set so xs) <-> In y (py_set so' xs))
    by (intros y; now rewrite !py_set_In).
  assert (Hy : forall y, In y (py_set so ys) <-> In y (py_set so' ys))
    by (intros y; now rewrite !py_set_In).
  unfold forget_strengths, match_of.
  cbn [career match_percent why_match skill_gap salary_forecast demand_trends].
  rewrite (interest_base_ext _ _ (fst entry) Hx).
  rewrite (overlap_ext lower so so' (snd entry) _ _ Hy).
  rewrite (filter_ext (fun s => negb (mem (lower s) (py_set so ys)))
                      (fun s => negb (mem (lower s) (py_set so' ys))))
    by (intros s; f_equal; now apply mem_ext).
  reflexivity.
Qed.

Lemma forget_strengths_percent (m : CareerMatch) :
  match_percent (forget_strengths m) = match_percent m.
Proof.
  reflexivity.
Qed.

Lemma ranked_forget (lower : string -> string) (so so' : SetOrder)
    (p : AssessmentSubmission) (t : Z) :
  map forget_strengths (ranked lower so p t) =
  map forget_strengths (ranked lower so' p t).
Proof.
  unfold ranked. rewrite !(sort_desc_map _ _ forget_strengths_percent), !map_map.
  f_equal. apply map_ext. intros entry. apply match_of_forget.
Qed.

(** Two interpreter processes agree on everything but [strengths]. *)
Lemma score_careers_forget (lower : string -> string) (so so' : SetOrder)
    (p : AssessmentSubmission) :
  map_result (map forget_strengths) (score_careers lower so p) =
  map_result (map forget_strengths) (score_careers lower so' p).
Proof.
  rewrite !score_careers_ranked.
  destruct (personality_tilt (personality_answers p)) as [t|e]; [|reflexivity].
  cbn [bind map_result]. f_equal. apply ranked_forget.
Qed.

Lemma map_forget_eq (f : CareerMatch -> string * Z) (l l' : list CareerMatch) :
  (forall m, f (forget_strengths m) = f m) ->
  map forget_strengths l = map forget_strengths l' ->
  map f l = map f l'.
Proof.
  intros Hf H. transitivity (map f (map forget_strengths l)).
  - rewrite map_map. apply map_ext. intros m. symmetry. apply Hf.
  - rewrite H, map_map. apply map_ext, Hf.
Qed.

(** C3, as amended.  The tilt added to every profile's base score is one
    number for the whole submission, [int((personality - 3) * 4)] computed
    in binary64 from the mean with the divisor floored at 1, and it is added
    before the clamp.  It is the product truncated toward zero, not
    floored: for the documented answers (integers 1 to 5, up to 50 of
    them) it equals the exact value of (personality_avg - 3) * 4 truncated
    toward zero.  With no answers the mean is 0 and the tilt is -12. *)
Theorem personality_tilt_truncates (lower : string -> string) (so : SetOrder)
    (p : AssessmentSubmission) (l : list CareerMatch) :
  score_careers lower so p = Ok l ->
  exists t,
    personality_tilt (personality_answers p) = Ok t /\
    (forall m, In m l ->
       exists meta, In (career m, meta) CAREER_LIBRARY /\
         match_percent m =
         clamp (interest_base (py_set so (map lower (interests p))) (career m)
                + Z.min (overlap lower so meta (py_set so (map lower (skills p))) * 6) 18
                + t)) /\
    (documented_answers (personality_answers p) ->
       t = tilt_trunc (personality_answers p)) /\
    (personality_answers p = [] ->
       (personality_avg (personality_answers p) == 0)%Q /\ t = -12).
Proof.
  intros Hl. apply score_careers_Ok in Hl as [t [Ht ->]].
  exists t. split; [exact Ht|]. split; [|split].
  - intros m Hm. apply ranked_In in Hm as [[c meta] [Hin ->]].
    exists meta. split; [exact Hin | reflexivity].
  - intros Hdoc. apply personality_tilt_documented in Hdoc as [Ht' _].
    rewrite Ht in Ht'. now injection Ht'.
  - intros Hnil. rewrite Hnil in Ht |- *. split; [reflexivity|].
    rewrite personality_tilt_empty in Ht. now injection Ht.
Qed.

Lemma personality_tilt_truncates_witness :
  exists t,
    personality_tilt [] = Ok t /\ t = tilt_trunc [] /\ t = -12.
Proof.
  destruct (personality_tilt_truncates ascii_lower order_fwd (submission [] [] [])
              (ranked ascii_lower order_fwd (submission [] [] []) (-12)))
    as [t [Ht [_ [Hdoc Hnil]]]].
  - vm_compute. reflexivity.
  - exists t. split; [exact Ht|]. split.
    + apply Hdoc. split; [constructor | cbn; lia].
    + apply Hnil. reflexivity.
Defined.

(** C3, as stated, fails: for the answers 2, 3, 3 the mean is 8/3 and
    (8/3 - 3) * 4 = -4/3, whose floor is -2, while the code adds -1: a
    profile with no boost scores 49, not 48. *)
Lemma personality_tilt_not_floor :
  tilt_floor [2; 3; 3] = -2 /\
  personality_tilt [2; 3; 3] <> Ok (tilt_floor [2; 3; 3]) /\
  map_result (map match_percent)
    (score_careers ascii_lower order_fwd (submission [] [] [2; 3; 3]))
  = Ok [49; 49; 49; 49; 49].
Proof.
  split; [reflexivity|]. split.
  - vm_compute. discriminate.
  - vm_compute. reflexivity.
Qed.

(** C4.  In the scenario (interests code and data, skills python and git,
    answers 4, 4, 5) Software Engineer gets 92 = 50 + 25 + 12 + 5 and Data
    Scientist gets 85 = 50 + 24 + 6 + 5, whatever the order of the sets;
    the other three profiles get 55. *)
Theorem scenario_scores (so : SetOrder) :
  exists l,
    score_careers ascii_lower so scenario = Ok l /\
    map (fun m => (career m, match_percent m)) l =
      [ ("Software Engineer", 92); ("Data Scientist", 85); ("UI/UX Designer", 55);
        ("Cybersecurity Analyst", 55); ("Product Manager", 55) ] /\
    let interests := py_set so (map ascii_lower (interests scenario)) in
    let skills := py_set so (map ascii_lower (skills scenario)) in
    interest_base interests "Software Engineer" = 50 + 25 /\
    Z.min (overlap ascii_lower so (profile "Software Engineer") skills * 6) 18 = 12 /\
    interest_base interests "Data Scientist" = 50 + 24 /\
    Z.min (overlap ascii_lower so (profile "Data Scientist") skills * 6) 18 = 6 /\
    personality_tilt (personality_answers scenario) = Ok 5.
Proof.
  assert (Ht : personality_tilt (personality_answers scenario) = Ok 5)
    by (vm_compute; reflexivity).
  assert (Hi : forall y, In y (py_set so (map ascii_lower (interests scenario))) <->
                         In y (py_set order_fwd (map ascii_lower (interests scenario))))
    by (intros y; now rewrite !py_set_In).
  assert (Hs : forall y, In y (py_set so (map ascii_lower (skills scenario))) <->
                         In y (py_set order_fwd (map ascii_lower (skills scenario))))
    by (intros y; now rewrite !py_set_In).
  exists (ranked ascii_lower so scenario 5). split; [|split].
  - apply score_careers_Ok. exists 5. split; [exact Ht | reflexivity].
  - rewrite (map_forget_eq _ _ (ranked ascii_lower order_fwd scenario 5)).
    + vm_compute. reflexivity.
    + reflexivity.
    + apply ranked_forget.
  - cbv zeta.
    rewrite !(interest_base_ext _ _ _ Hi).
    rewrite !(overlap_ext ascii_lower so order_fwd _ _ _ Hs).
    repeat split; try exact Ht; vm_compute; reflexivity.
Qed.

(** ** Skill gaps and strengths *)

Lemma In_firstn {A : Type} (n : nat) (l : list A) (x : A) :
  In x (firstn n l) -> In x l.
Proof.
  revert l. induction n as [|n IH]; intros [|a l]; cbn [firstn In]; try tauto.
  intros [-> | H]; [now left | right; now apply IH].
Qed.

Lemma NoDup_firstn {A : Type} (n : nat) (l : list A) :
  NoDup l -> NoDup (firstn n l).
Proof.
  revert l. induction n as [|n IH]; intros [|a l] H; cbn [firstn]; try constructor.
  - inversion H as [|? ? Ha _]; subst. intros Hin. apply Ha. eapply In_firstn, Hin.
  - inversion H; subst. now apply IH.
Qed.

Lemma gap_filter_py_set (lower : string -> string) (so : SetOrder)
    (sk req : list string) :
  filter (fun s => negb (mem (lower s) (py_set so sk))) req =
  filter (fun s => negb (mem (lower s) sk)) req.
Proof.
  apply filter_ext. intros s. now rewrite mem_py_set.
Qed.

(** C5.  For every profile of the catalog the returned match carries as
    [skill_gap] exactly the profile's skills whose lowercase form is not
    among the lowercased skills of the submission, in the profile's order
    and casing; no skill of a [skill_gap] equals, up to case, a skill of the
    submission. *)
Theorem skill_gap_exact (lower : string -> string) (so : SetOrder)
    (p : AssessmentSubmission) (l : list CareerMatch) :
  score_careers lower so p = Ok l ->
  let absent := fun s => negb (mem (lower s) (map lower (skills p))) in
  (forall c meta, In (c, meta) CAREER_LIBRARY ->
     exists m, In m l /\ career m = c /\
               skill_gap m = filter absent (meta_skills meta)) /\
  (forall m, In m l ->
     (exists meta, In (career m, meta) CAREER_LIBRARY /\
                   skill_gap m = filter absent (meta_skills meta)) /\
     (forall g s, In g (skill_gap m) -> In s (skills p) -> lower g <> lower s)).
Proof.
  intros Hl absent. apply score_careers_Ok in Hl as [t [_ ->]].
  assert (Hgap : forall entry,
    skill_gap (match_of lower so (py_set so (map lower (interests p)))
                 (py_set so (map lower (skills p))) t entry)
    = filter absent (meta_skills (snd entry)))
    by (intros entry; apply gap_filter_py_set).
  split.
  - intros c meta Hin. eexists. split; [|split].
    + apply ranked_In. exists (c, meta). split; [exact Hin | reflexivity].
    + reflexivity.
    + apply Hgap.
  - intros m Hm. apply ranked_In in Hm as [[c meta] [Hin ->]]. split.
    + exists meta. split; [exact Hin | apply Hgap].
    + intros g s Hg Hs Heq. rewrite Hgap in Hg.
      apply filter_In in Hg as [_ Hg]. unfold absent in Hg.
      apply negb_true_iff in Hg.
      assert (Hmem : mem (lower g) (map lower (skills p)) = true)
        by (apply mem_In; rewrite Heq; now apply in_map).
      congruence.
Qed.

Lemma skill_gap_exact_witness :
  exists l,
    score_careers ascii_lower order_fwd scenario = Ok l /\
    (exists m, In m l /\ career m = "Software Engineer" /\
               skill_gap m = ["Data Structures"; "Algorithms"; "System Design"]) /\
    (forall m, In m l -> forall g s,
       In g (skill_gap m) -> In s (skills scenario) -> ascii_lower g <> ascii_lower s).
Proof.
  exists (ranked ascii_lower order_fwd scenario 5).
  assert (H : score_careers ascii_lower order_fwd scenario
              = Ok (ranked ascii_lower order_fwd scenario 5))
    by (vm_compute; reflexivity).
  destruct (skill_gap_exact ascii_lower order_fwd scenario _ H) as [Hp Hm].
  split; [exact H|]. split.
  - destruct (Hp "Software Engineer" (profile "Software Engineer")) as [m [Hin [Hc Hg]]].
    + left. reflexivity.
    + exists m. split; [exact Hin|]. split; [exact Hc|]. rewrite Hg. reflexivity.
  - intros m Hin. apply (Hm m Hin).
Defined.

Lemma ranked_strengths (lower : string -> string) (so : SetOrder)
    (p : AssessmentSubmission) (t : Z) (m : CareerMatch) :
  In m (ranked lower so p t) ->
  strengths m = firstn 5 (py_set so (map lower (skills p))).
Proof.
  intros Hm. apply ranked_In in Hm as [entry [_ ->]]. reflexivity.
Qed.

(** C6, as amended.  In every returned match [strengths] is the first 5
    members of the set of the submission's lowercased skills, in the order
    in which the interpreter iterates that set: at most 5 distinct names,
    each the lowercase form of a submitted skill.  Neither the casing nor
    the order of the submission is kept. *)
Theorem strengths_from_set (lower : string -> string) (so : SetOrder)
    (p : AssessmentSubmission) (l : list CareerMatch) :
  score_careers lower so p = Ok l ->
  forall m, In m l ->
    strengths m = firstn 5 (py_set so (map lower (skills p))) /\
    NoDup (strengths m) /\
    (List.length (strengths m) <= 5)%nat /\
    (forall s, In s (strengths m) -> exists s0, In s0 (skills p) /\ s = lower s0).
Proof.
  intros Hl m Hm. apply score_careers_Ok in Hl as [t [_ ->]].
  rewrite (ranked_strengths lower so p t m Hm).
  split; [reflexivity|]. split; [|split].
  - apply NoDup_firstn, py_set_NoDup.
  - apply firstn_le_length.
  - intros s Hs. apply In_firstn, py_set_In, in_map_iff in Hs as [s0 [<- Hs0]].
    now exists s0.
Qed.

Lemma strengths_from_set_witness :
  exists l,
    score_careers ascii_lower order_fwd
      (submission [] ["Go"; "SQL"; "go"; "Rust"; "C"; "Lua"; "Perl"] [3]) = Ok l /\
    forall m, In m l -> strengths m = ["sql"; "go"; "rust"; "c"; "lua"].
Proof.
  exists (ranked ascii_lower order_fwd
            (submission [] ["Go"; "SQL"; "go"; "Rust"; "C"; "Lua"; "Perl"] [3]) 0).
  assert (H : score_careers ascii_lower order_fwd
                (submission [] ["Go"; "SQL"; "go"; "Rust"; "C"; "Lua"; "Perl"] [3])
              = Ok (ranked ascii_lower order_fwd
                      (submission [] ["Go"; "SQL"; "go"; "Rust"; "C"; "Lua"; "Perl"] [3]) 0))
    by (vm_compute; reflexivity).
  split; [exact H|]. intros m Hm.
  destruct (strengths_from_set ascii_lower order_fwd _ _ H m Hm) as [Hs _].
  rewrite Hs. reflexivity.
Defined.

(** C6, as stated, fails.  A submitted skill "Python" comes back as
    "python"; and an interpreter that iterates the set of "git" and
    "python" in the other order returns them in the other order. *)
Lemma strengths_not_as_submitted :
  (exists l,
     score_careers ascii_lower order_fwd (submission [] ["Python"] [3]) = Ok l /\
     l <> [] /\
     Forall (fun m => strengths m = ["python"] /\
                      strengths m <> firstn 5 ["Python"]) l) /\
  (exists l,
     score_careers ascii_lower order_rev (submission [] ["git"; "python"] [3]) = Ok l /\
     l <> [] /\
     Forall (fun m => strengths m = ["python"; "git"] /\
                      strengths m <> firstn 5 ["git"; "python"]) l).
Proof.
  split.
  - exists (ranked ascii_lower order_fwd (submission [] ["Python"] [3]) 0).
    split; [vm_compute; reflexivity|]. split; [vm_compute; discriminate|].
    apply Forall_forall. intros m Hm.
    rewrite (ranked_strengths ascii_lower order_fwd
               (submission [] ["Python"] [3]) 0 m Hm).
    split; [reflexivity | vm_compute; discriminate].
  - exists (ranked ascii_lower order_rev (submission [] ["git"; "python"] [3]) 0).
    split; [vm_compute; reflexivity|]. split; [vm_compute; discriminate|].
    apply Forall_forall. intros m Hm.
    rewrite (ranked_strengths ascii_lower order_rev
               (submission [] ["git"; "python"] [3]) 0 m Hm).
    split; [reflexivity | vm_compute; discriminate].
Qed.

(** ** Determinism *)

Lemma forget_strengths_inj (m m' : CareerMatch) :
  forget_strengths m = forget_strengths m' -> strengths m = strengths m' -> m = m'.
Proof.
  destruct m, m'. unfold forget_strengths. cbn. intros [= -> -> -> -> -> ->] ->.
  reflexivity.
Qed.

Lemma match_of_same_listing (lower : string -> string) (so so' : SetOrder)
    (xs ys : list string) (t : Z) (entry : string * CareerMeta) :
  py_set so ys = py_set so' ys ->
  match_of lower so (py_set so xs) (py_set so ys) t entry =
  match_of lower so' (py_set so' xs) (py_set so' ys) t entry.
Proof.
  intros H. apply forget_strengths_inj.
  - apply match_of_forget.
  - cbn [match_of strengths]. now rewrite H.
Qed.

(** C9, as amended.  The output of [score_careers] is a function of the
    submission and of the order in which the interpreter process lists the
    set of the lowercased skills: two calls that see the same listing return
    the same result (in particular two calls in one process), and any two
    calls agree on the raised exception, on the order of the matches and on
    every field of every match except [strengths], which are the first five
    of two arrangements of the same names. *)
Theorem score_careers_up_to_set_order (lower : string -> string) (so so' : SetOrder)
    (p : AssessmentSubmission) :
  (py_set so (map lower (skills p)) = py_set so' (map lower (skills p)) ->
   score_careers lower so p = score_careers lower so' p) /\
  map_result (map forget_strengths) (score_careers lower so p) =
  map_result (map forget_strengths) (score_careers lower so' p) /\
  (forall l l' m m',
     score_careers lower so p = Ok l -> score_careers lower so' p = Ok l' ->
     In m l -> In m' l' ->
     exists names names',
       Permutation names names' /\
       strengths m = firstn 5 names /\ strengths m' = firstn 5 names').
Proof.
  split; [|split].
  - intros H. rewrite !score_careers_ranked.
    destruct (personality_tilt (personality_answers p)) as [t|e]; [|reflexivity].
    cbn [bind]. f_equal. unfold ranked. f_equal. apply map_ext. intros entry.
    now apply match_of_same_listing.
  - apply score_careers_forget.
  - intros l l' m m' Hl Hl' Hm Hm'.
    apply score_careers_Ok in Hl as [t [_ ->]].
    apply score_careers_Ok in Hl' as [t' [_ ->]].
    exists (py_set so (map lower (skills p))), (py_set so' (map lower (skills p))).
    split; [apply py_set_Permutation|].
    split; eapply ranked_strengths; eassumption.
Qed.

Lemma score_careers_up_to_set_order_witness :
  score_careers ascii_lower order_fwd (submission ["design"] ["Figma"] [4; 5]) =
  score_careers ascii_lower order_rev (submission ["design"] ["Figma"] [4; 5]).
Proof.
  apply (score_careers_up_to_set_order ascii_lower order_fwd order_rev
           (submission ["design"] ["Figma"] [4; 5])).
  reflexivity.
Defined.

(** C9, as stated, fails: the same submission, with the skills git and
    python, gets different [strengths] from two interpreter processes that
    iterate the set of the two names in different orders. *)
Lemma score_careers_depends_on_set_order :
  score_careers ascii_lower order_fwd (submission [] ["git"; "python"] [3]) <>
  score_careers ascii_lower order_rev (submission [] ["git"; "python"] [3]).
Proof.
  vm_compute. discriminate.
Qed.

(** C10.  Two submissions with the same interests, skills and personality
    answers get the same result, whatever their other fields. *)
Theorem score_careers_reads_three_fields (lower : string -> string) (so : SetOrder)
    (p q : AssessmentSubmission) :
  interests p = interests q ->
  skills p = skills q ->
  personality_answers p = personality_answers q ->
  score_careers lower so p = score_careers lower so q.
Proof.
  intros Hi Hs Ha. unfold score_careers. now rewrite Hi, Hs, Ha.
Qed.

Lemma score_careers_reads_three_fields_witness :
  score_careers ascii_lower order_fwd scenario =
  score_careers ascii_lower order_fwd
    {| academic_performance := "A+";
       interests := ["code"; "data"];
       skills := ["python"; "git"];
       preferences := ["remote"; "startup"];
       personality_answers := [4; 4; 5];
       uploaded_docs := Some ["cv.pdf"];
       language := "hi" |}.
Proof.
  apply score_careers_reads_three_fields; reflexivity.
Defined.

(** ** The roadmap selector *)

Lemma find_one_In (store : TemplateStore) (c : string) (d : TemplateDoc) :
  find_one store c = Some d -> In d store /\ d_career d = c.
Proof.
  unfold find_one. intros H. apply find_some in H as [Hin Heq].
  split; [exact Hin | now apply String.eqb_eq].
Qed.

Lemma library_get_absent (lib : list (string * CareerMeta)) (c : string)
    (default : CareerMeta) :
  ~ In c (map fst lib) -> library_get lib c default = default.
Proof.
  induction lib as [|[k v] lib IH]; cbn [library_get map fst In]; intros H.
  - reflexivity.
  - destruct (String.eqb k c) eqn:E.
    + apply String.eqb_eq in E. tauto.
    + apply IH. tauto.
Qed.

(** [generate_roadmap] never raises, and builds one of two results. *)
Lemma generate_roadmap_cases (db : option TemplateStore) (data : list (string * string)) :
  generate_roadmap db data =
  Ok match lookup db (requested data) with
     | Some d => roadmap_of_doc (requested data) d
     | None => default_roadmap (requested data)
     end.
Proof.
  unfold generate_roadmap. fold (requested data). fold (lookup db (requested data)).
  destruct (lookup db (requested data)); reflexivity.
Qed.

Lemma default_required_nonempty (c : string) :
  r_required_skills (default_roadmap c) <> [].
Proof.
  unfold default_roadmap, CAREER_LIBRARY. cbn [r_required_skills library_get].
  repeat match goal with
         | |- context [if ?b then _ else _] => destruct b
         end; discriminate.
Qed.

(** A field of a result built from a stored document has the value of the
    synthesized default only when the document itself holds that value. *)
Lemma roadmap_of_doc_unmixed (c : string) (d : TemplateDoc) :
  let r := roadmap_of_doc c d in
  (r_summary r = r_summary (default_roadmap c) -> d_summary d = Some (r_summary r)) /\
  (r_required_skills r = r_required_skills (default_roadmap c) ->
     d_required_skills d = Some (r_required_skills r)) /\
  (r_roadmap r = r_roadmap (default_roadmap c) -> d_roadmap d = Some (r_roadmap r)) /\
  (r_actions r = r_actions (default_roadmap c) ->
     d_default_actions d = Some (r_actions r)).
Proof.
  destruct d as [dc ds dr dm da]. unfold roadmap_of_doc.
  cbn [r_summary r_required_skills r_roadmap r_actions d_summary d_required_skills
       d_roadmap d_default_actions].
  repeat split; intros H.
  - destruct ds; [reflexivity|]. cbn in H. discriminate H.
  - destruct dr; [reflexivity|]. cbn [get] in H.
    symmetry in H. now apply default_required_nonempty in H.
  - destruct dm; [reflexivity|]. cbn in H. discriminate H.
  - destruct da; [reflexivity|]. cbn in H. discriminate H.
Qed.

(** C7.  When the store holds a template for the requested career,
    [generate_roadmap] returns that template's summary, required skills,
    stages and actions.  Every result is either built from the stored
    document alone, and then none of its fields is taken from the
    synthesized default, or is the synthesized default as a whole. *)
Theorem template_takes_precedence (store : TemplateStore)
    (data : list (string * string)) (tpl : CareerTemplate) :
  find_one store (requested data) = Some (model_dump tpl) ->
  generate_roadmap (Some store) data =
    Ok {| r_career := requested data;
          r_summary := t_summary tpl;
          r_required_skills := t_required_skills tpl;
          r_roadmap := t_roadmap tpl;
          r_actions := t_default_actions tpl |} /\
  (forall db' data',
     (exists d r,
        lookup db' (requested data') = Some d /\
        generate_roadmap db' data' = Ok r /\ r = roadmap_of_doc (requested data') d /\
        (r_summary r = r_summary (default_roadmap (requested data')) ->
           d_summary d = Some (r_summary r)) /\
        (r_required_skills r = r_required_skills (default_roadmap (requested data')) ->
           d_required_skills d = Some (r_required_skills r)) /\
        (r_roadmap r = r_roadmap (default_roadmap (requested data')) ->
           d_roadmap d = Some (r_roadmap r)) /\
        (r_actions r = r_actions (default_roadmap (requested data')) ->
           d_default_actions d = Some (r_actions r))) \/
     (lookup db' (requested data') = None /\
      generate_roadmap db' data' = Ok (default_roadmap (requested data')))).
Proof.
  intros H. split.
  - rewrite generate_roadmap_cases. cbn [lookup]. rewrite H. reflexivity.
  - intros db' data'. rewrite generate_roadmap_cases.
    destruct (lookup db' (requested data')) as [d|].
    + left. exists d, (roadmap_of_doc (requested data') d).
      split; [reflexivity|]. split; [reflexivity|]. split; [reflexivity|].
      apply roadmap_of_doc_unmixed.
    + right. now split.
Qed.

Lemma template_takes_precedence_witness :
  generate_roadmap
    (Some [ model_dump {| t_career := "Data Scientist"; t_summary := "Numbers first.";
                          t_required_skills := ["R"]; t_roadmap := [("Year 1", ["Statistics"])];
                          t_default_actions := ["Kaggle"]; t_prompts := None |};
            model_dump {| t_career := "Software Engineer"; t_summary := "Ship things.";
                          t_required_skills := ["Go"; "SQL"];
                          t_roadmap := [("Month 1", ["Read code"]); ("Month 2", ["Write code"])];
                          t_default_actions := ["Fix a bug"]; t_prompts := None |} ])
    [("career", "Software Engineer")]
  = Ok {| r_career := "Software Engineer";
          r_summary := "Ship things.";
          r_required_skills := ["Go"; "SQL"];
          r_roadmap := [("Month 1", ["Read code"]); ("Month 2", ["Write code"])];
          r_actions := ["Fix a bug"] |}.
Proof.
  refine (proj1 (template_takes_precedence _ [("career", "Software Engineer")]
    {| t_career := "Software Engineer"; t_summary := "Ship things.";
       t_required_skills := ["Go"; "SQL"];
       t_roadmap := [("Month 1", ["Read code"]); ("Month 2", ["Write code"])];
       t_default_actions := ["Fix a bug"]; t_prompts := None |} _)).
  reflexivity.
Defined.

(** C8.  For a career with no stored template and no profile in the
    catalog, [generate_roadmap] returns the Software Engineer profile's
    skills, the five synthesized stages in their insertion order, and the
    summary sentence built around the requested name. *)
Theorem unknown_career_falls_back (db : option TemplateStore)
    (data : list (string * string)) :
  lookup db (requested data) = None ->
  ~ In (requested data) (map fst CAREER_LIBRARY) ->
  exists r,
    generate_roadmap db data = Ok r /\
    r_career r = requested data /\
    r_required_skills r = meta_skills (profile "Software Engineer") /\
    r_required_skills r = ["Data Structures"; "Algorithms"; "Python"; "Git"; "System Design"] /\
    map fst (r_roadmap r) =
      ["Classes 8–10"; "Classes 11–12"; "Graduation"; "Certifications"; "Portfolio"] /\
    r_summary r = "A clear, stage-wise pathway to become a " ++ requested data ++ ".".
Proof.
  intros Hnone Habsent. exists (default_roadmap (requested data)).
  split; [rewrite generate_roadmap_cases, Hnone; reflexivity|].
  unfold default_roadmap. cbn [r_career r_required_skills r_roadmap r_summary].
  rewrite (library_get_absent _ _ _ Habsent).
  repeat split; reflexivity.
Qed.

Lemma unknown_career_falls_back_witness :
  exists r,
    generate_roadmap (Some []) [("career", "Nonexistent Career")] = Ok r /\
    r_required_skills r = ["Data Structures"; "Algorithms"; "Python"; "Git"; "System Design"] /\
    map fst (r_roadmap r) =
      ["Classes 8–10"; "Classes 11–12"; "Graduation"; "Certifications"; "Portfolio"] /\
    r_summary r = "A clear, stage-wise pathway to become a Nonexistent Career.".
Proof.
  destruct (unknown_career_falls_back (Some []) [("career", "Nonexistent Career")])
    as [r [Hr [_ [_ [Hreq [Hst Hsum]]]]]].
  - reflexivity.
  - cbn. intros H. repeat (destruct H as [H | H]; [discriminate H|]). exact H.
  - exists r. repeat split; assumption.
Defined.

(** * More of the scoring engine *)

(** ** The catalog as a map *)

Lemma catalog_keys_NoDup : NoDup (map fst CAREER_LIBRARY).
Proof.
  unfold CAREER_LIBRARY. cbn [map fst].
  repeat (constructor;
          [cbn [In]; intros H;
           repeat (destruct H as [H | H]; [discriminate H|]); exact H|]).
  constructor.
Qed.

Lemma In_fst_unique {K V : Type} (l : list (K * V)) (k : K) (v v' : V) :
  NoDup (map fst l) -> In (k, v) l -> In (k, v') l -> v = v'.
Proof.
  induction l as [|[k0 v0] l IH]; cbn [map fst In]; intros Hnd H H'; [contradiction|].
  inversion Hnd as [|? ? Hnotin Hnd']; subst.
  destruct H as [H | H], H' as [H' | H'].
  - congruence.
  - injection H as -> ->. exfalso. apply Hnotin. now apply (in_map fst) in H'.
  - injection H' as -> ->. exfalso. apply Hnotin. now apply (in_map fst) in H.
  - now apply IH.
Qed.

Lemma catalog_entry_unique (e e' : string * CareerMeta) :
  In e CAREER_LIBRARY -> In e' CAREER_LIBRARY -> fst e = fst e' -> e = e'.
Proof.
  destruct e as [c meta], e' as [c' meta']. cbn [fst]. intros H H' <-.
  f_equal. exact (In_fst_unique _ _ _ _ catalog_keys_NoDup H H').
Qed.

(** ** The interest rules *)

Lemma rule_boost_range (interests : list string) (c : string) :
  0 <= rule_boost interests c <= 25.
Proof.
  unfold rule_boost.
  destruct (find (fun r => String.eqb (fst r) c) boost_rules) as [[k [tags bonus]]|] eqn:F;
    [|lia].
  apply find_some in F as [Hin _]. destruct (existsb _ tags); [|lia].
  unfold boost_rules in Hin. cbn [In] in Hin.
  repeat (destruct Hin as [[= _ _ <-] | Hin]; [lia|]). contradiction.
Qed.

Lemma if_same {A : Type} (b : bool) (x : A) : (if b then x else x) = x.
Proof.
  now destruct b.
Qed.

Ltac split_mems interests :=
  repeat match goal with
         | |- context [mem ?t interests] => destruct (mem t interests)
         end.

Ltac known_career E interests :=
  apply String.eqb_eq in E; subst; cbn -[mem Z.add]; rewrite ?if_same;
  split_mems interests; reflexivity.

(** X1.  The chain of conditionals is the rule table: a career's score
    starts from 50 plus the bonus of its own rule when one of the rule's
    tags is among the interests, whatever else the interests contain; a
    career without a rule starts from 50. *)
Theorem interest_base_table (interests : list string) (c : string) :
  interest_base interests c = 50 + rule_boost interests c.
Proof.
  unfold interest_base, rule_boost, boost_rules. cbn [find fst].
  rewrite !(String.eqb_sym _ c).
  destruct (String.eqb c "Software Engineer") eqn:E1; [known_career E1 interests|].
  destruct (String.eqb c "UI/UX Designer") eqn:E2; [known_career E2 interests|].
  destruct (String.eqb c "Data Scientist") eqn:E3; [known_career E3 interests|].
  destruct (String.eqb c "Cybersecurity Analyst") eqn:E4; [known_career E4 interests|].
  destruct (String.eqb c "Product Manager") eqn:E5; [known_career E5 interests|].
  cbn -[mem Z.add]. rewrite ?if_same. reflexivity.
Qed.

Lemma interest_base_range (interests : list string) (c : string) :
  50 <= interest_base interests c <= 75.
Proof.
  rewrite interest_base_table. pose proof (rule_boost_range interests c). lia.
Qed.

(** ** Members, not lists *)

Lemma match_of_forget_ext (lower : string -> string) (so so' : SetOrder)
    (xs xs' ys ys' : list string) (t : Z) (entry : string * CareerMeta) :
  (forall y, In y xs <-> In y xs') ->
  (forall y, In y ys <-> In y ys') ->
  forget_strengths (match_of lower so xs ys t entry) =
  forget_strengths (match_of lower so' xs' ys' t entry).
Proof.
  intros Hx Hy. unfold forget_strengths, match_of.
  cbn [career match_percent why_match skill_gap salary_forecast demand_trends].
  rewrite (interest_base_ext _ _ (fst entry) Hx).
  rewrite (overlap_ext lower so so' (snd entry) _ _ Hy).
  rewrite (filter_ext (fun s => negb (mem (lower s) ys))
                      (fun s => negb (mem (lower s) ys')))
    by (intros s; f_equal; now apply mem_ext).
  reflexivity.
Qed.

Lemma py_set_same_members (so so' : SetOrder) (xs xs' : list string) :
  (forall y, In y xs <-> In y xs') ->
  forall y, In y (py_set so xs) <-> In y (py_set so' xs').
Proof.
  intros H y. rewrite !py_set_In. apply H.
Qed.

(** X2.  Only the members of the lowercased interests and skills count:
    two submissions whose interests, and whose skills, have the same
    lowercase forms, in any order, casing or multiplicity, and whose answers
    are the same, get the same exception or the same matches in the same
    order, except for [strengths]. *)
Theorem score_careers_same_members (lower : string -> string) (so so' : SetOrder)
    (p q : AssessmentSubmission) :
  (forall y, In y (map lower (interests p)) <-> In y (map lower (interests q))) ->
  (forall y, In y (map lower (skills p)) <-> In y (map lower (skills q))) ->
  personality_answers p = personality_answers q ->
  map_result (map forget_strengths) (score_careers lower so p) =
  map_result (map forget_strengths) (score_careers lower so' q).
Proof.
  intros Hi Hs Ha. rewrite !score_careers_ranked, <- Ha.
  destruct (personality_tilt (personality_answers p)) as [t|e]; [|reflexivity].
  cbn [bind map_result]. f_equal. unfold ranked.
  rewrite !(sort_desc_map _ _ forget_strengths_percent), !map_map.
  f_equal. apply map_ext. intros entry.
  apply match_of_forget_ext; now apply py_set_same_members.
Qed.

Lemma score_careers_same_members_witness :
  map_result (map forget_strengths)
    (score_careers ascii_lower order_fwd
       (submission ["Code"; "DATA"; "code"] ["Git"; "PYTHON"; "git"] [4; 4; 5])) =
  map_result (map forget_strengths)
    (score_careers ascii_lower order_rev scenario).
Proof.
  apply score_careers_same_members.
  - intros y. cbn. tauto.
  - intros y. cbn. tauto.
  - reflexivity.
Defined.

(** ** Skills covered and skills missing *)

Lemma filter_split_length {A : Type} (f : A -> bool) (l : list A) :
  (List.length (filter f l) + List.length (filter (fun x => negb (f x)) l))%nat
  = List.length l.
Proof.
  induction l as [|x l IH]; cbn [filter List.length]; [reflexivity|].
  destruct (f x); cbn [negb List.length]; lia.
Qed.

Lemma filter_map_length {A B : Type} (g : A -> B) (f : B -> bool) (l : list A) :
  List.length (filter f (map g l)) = List.length (filter (fun x => f (g x)) l).
Proof.
  induction l as [|x l IH]; cbn [map filter]; [reflexivity|].
  destruct (f (g x)); cbn [List.length]; now rewrite IH.
Qed.

Lemma filter_length_mono {A : Type} (f g : A -> bool) (l : list A) :
  (forall x, f x = true -> g x = true) ->
  (List.length (filter f l) <= List.length (filter g l))%nat.
Proof.
  intros H. induction l as [|x l IH]; cbn [filter]; [lia|].
  destruct (f x) eqn:E.
  - rewrite (H x E). cbn [List.length]. lia.
  - destruct (g x); cbn [List.length]; lia.
Qed.

(** With the lowercase forms of a profile's skills all different, the
    overlap counts the skills that are not in the gap. *)
Lemma overlap_plus_gap (lower : string -> string) (so : SetOrder)
    (meta : CareerMeta) (sk : list string) :
  NoDup (map lower (meta_skills meta)) ->
  overlap lower so meta sk
  + len (filter (fun s => negb (mem (lower s) sk)) (meta_skills meta))
  = len (meta_skills meta).
Proof.
  intros Hnd. unfold overlap, intersection, len.
  assert (Hperm : Permutation (py_set so (map lower (meta_skills meta)))
                              (map lower (meta_skills meta))).
  { apply NoDup_Permutation; [apply py_set_NoDup | exact Hnd|].
    intros x. apply py_set_In. }
  rewrite (Permutation_length (Permutation_filter (fun x => mem x sk) _ _ Hperm)).
  rewrite filter_map_length.
  pose proof (filter_split_length (fun s => mem (lower s) sk) (meta_skills meta)).
  lia.
Qed.

(** X3.  For a profile whose skills have pairwise different lowercase
    forms, as all five of the catalog have, the skill bonus of its match is
    6 for every profile skill that is not in its [skill_gap], capped at 18:
    the score and the gap of a match always tell the same story. *)
Theorem skill_boost_counts_covered (lower : string -> string) (so : SetOrder)
    (p : AssessmentSubmission) (l : list CareerMatch) (m : CareerMatch)
    (meta : CareerMeta) :
  score_careers lower so p = Ok l ->
  In m l ->
  In (career m, meta) CAREER_LIBRARY ->
  NoDup (map lower (meta_skills meta)) ->
  exists t,
    personality_tilt (personality_answers p) = Ok t /\
    match_percent m =
    clamp (50 + rule_boost (py_set so (map lower (interests p))) (career m)
           + Z.min ((len (meta_skills meta) - len (skill_gap m)) * 6) 18
           + t).
Proof.
  intros Hl Hm Hmeta Hnd. apply score_careers_Ok in Hl as [t [Ht ->]].
  apply ranked_In in Hm as [[c meta0] [Hin ->]].
  cbn [match_of career fst] in Hmeta.
  rewrite (In_fst_unique _ _ _ _ catalog_keys_NoDup Hmeta Hin) in *.
  exists t. split; [exact Ht|].
  cbn [match_of match_percent skill_gap career fst snd].
  rewrite interest_base_table.
  pose proof (overlap_plus_gap lower so meta0 (py_set so (map lower (skills p))) Hnd) as H.
  replace (len (meta_skills meta0)
           - len (filter (fun s => negb (mem (lower s) (py_set so (map lower (skills p)))))
                    (meta_skills meta0)))
    with (overlap lower so meta0 (py_set so (map lower (skills p)))) by lia.
  reflexivity.
Qed.

Lemma catalog_lowercase_distinct :
  Forall (fun e => NoDup (map ascii_lower (meta_skills (snd e)))) CAREER_LIBRARY.
Proof.
  unfold CAREER_LIBRARY. repeat constructor; cbn; intros H;
    repeat (destruct H as [H | H]; [discriminate H|]); exact H.
Qed.

Lemma skill_boost_counts_covered_witness :
  exists l m,
    score_careers ascii_lower order_fwd scenario = Ok l /\ In m l /\
    career m = "Data Scientist" /\
    skill_gap m = ["Statistics"; "Pandas"; "Machine Learning"; "Visualization"] /\
    match_percent m = clamp (50 + 24 + Z.min ((5 - 4) * 6) 18 + 5).
Proof.
  pose (m := match_of ascii_lower order_fwd
               (py_set order_fwd (map ascii_lower (interests scenario)))
               (py_set order_fwd (map ascii_lower (skills scenario))) 5
               ("Data Scientist", profile "Data Scientist")).
  assert (Hl : score_careers ascii_lower order_fwd scenario
               = Ok (ranked ascii_lower order_fwd scenario 5))
    by (vm_compute; reflexivity).
  assert (Hm : In m (ranked ascii_lower order_fwd scenario 5))
    by (vm_compute; right; left; reflexivity).
  destruct (skill_boost_counts_covered ascii_lower order_fwd scenario _ m
              (profile "Data Scientist") Hl Hm) as [t [Ht Hp]].
  - right. left. reflexivity.
  - pose proof catalog_lowercase_distinct as H.
    rewrite Forall_forall in H.
    apply (H ("Data Scientist", profile "Data Scientist")). right. left. reflexivity.
  - exists (ranked ascii_lower order_fwd scenario 5), m.
    split; [exact Hl|]. split; [exact Hm|]. split; [reflexivity|].
    split; [reflexivity|]. vm_compute. reflexivity.
Defined.

(** X4.  A match has an empty [skill_gap] exactly when every skill of its
    profile equals, up to case, a skill of the submission. *)
Theorem skill_gap_empty_iff_covered (lower : string -> string) (so : SetOrder)
    (p : AssessmentSubmission) (l : list CareerMatch) (m : CareerMatch)
    (meta : CareerMeta) :
  score_careers lower so p = Ok l ->
  In m l ->
  In (career m, meta) CAREER_LIBRARY ->
  (skill_gap m = [] <->
   forall s, In s (meta_skills meta) ->
             exists s', In s' (skills p) /\ lower s = lower s').
Proof.
  intros Hl Hm Hmeta. apply score_careers_Ok in Hl as [t [_ ->]].
  apply ranked_In in Hm as [[c meta0] [Hin ->]].
  cbn [match_of career fst] in Hmeta.
  rewrite (In_fst_unique _ _ _ _ catalog_keys_NoDup Hmeta Hin) in *.
  cbn [match_of skill_gap snd]. rewrite gap_filter_py_set. split.
  - intros Hnil s Hs.
    destruct (mem (lower s) (map lower (skills p))) eqn:E.
    + apply mem_In, in_map_iff in E as [s' [E Hs']]. exists s'. now split.
    + assert (Hf : In s (filter (fun s0 => negb (mem (lower s0) (map lower (skills p))))
                           (meta_skills meta0)))
        by (apply filter_In; split; [exact Hs | now rewrite E]).
      rewrite Hnil in Hf. contradiction.
  - intros Hall.
    destruct (filter _ (meta_skills meta0)) as [|g gs] eqn:E; [reflexivity|].
    assert (Hg : In g (g :: gs)) by now left.
    rewrite <- E in Hg. apply filter_In in Hg as [Hg Hneg].
    destruct (Hall g Hg) as [s' [Hs' Heq]].
    apply negb_true_iff in Hneg.
    assert (Hmem : mem (lower g) (map lower (skills p)) = true)
      by (apply mem_In; rewrite Heq; now apply in_map).
    congruence.
Qed.

Lemma skill_gap_empty_iff_covered_witness :
  exists l m,
    score_careers ascii_lower order_fwd
      (submission [] ["figma"; "USER RESEARCH"; "Prototyping"; "visual design";
                      "accessibility"; "Excel"] [3]) = Ok l /\
    In m l /\ career m = "UI/UX Designer" /\ skill_gap m = [].
Proof.
  set (p := submission [] ["figma"; "USER RESEARCH"; "Prototyping"; "visual design";
                           "accessibility"; "Excel"] [3]).
  pose (m := match_of ascii_lower order_fwd
               (py_set order_fwd (map ascii_lower (interests p)))
               (py_set order_fwd (map ascii_lower (skills p))) 0
               ("UI/UX Designer", profile "UI/UX Designer")).
  assert (Hl : score_careers ascii_lower order_fwd p = Ok (ranked ascii_lower order_fwd p 0))
    by (vm_compute; reflexivity).
  assert (Hm : In m (ranked ascii_lower order_fwd p 0))
    by (vm_compute; left; reflexivity).
  exists (ranked ascii_lower order_fwd p 0), m.
  split; [exact Hl|]. split; [exact Hm|]. split; [reflexivity|].
  apply (skill_gap_empty_iff_covered ascii_lower order_fwd p _ m
           (profile "UI/UX Designer") Hl Hm).
  - right. right. left. reflexivity.
  - intros s Hs. cbn in Hs.
    destruct Hs as [<- | [<- | [<- | [<- | [<- | []]]]]];
      [exists "figma" | exists "USER RESEARCH" | exists "Prototyping"
       | exists "visual design" | exists "accessibility"];
      (split; [cbn; tauto | reflexivity]).
Defined.

(** ** How far a score can go *)

Lemma overlap_nonneg (lower : string -> string) (so : SetOrder)
    (meta : CareerMeta) (sk : list string) :
  0 <= overlap lower so meta sk.
Proof.
  unfold overlap, len. lia.
Qed.

(** X5.  For the documented answers (integers 1 to 5, up to 50 of them)
    [score_careers] returns, the lower clamp never acts and every
    [match_percent] is at least 38; with at least one answer it is at least
    42.  (The upper clamp does act on such answers.) *)
Theorem score_careers_documented_bounds (lower : string -> string) (so : SetOrder)
    (p : AssessmentSubmission) :
  documented_answers (personality_answers p) ->
  exists l,
    score_careers lower so p = Ok l /\
    Forall (fun m => 38 <= match_percent m <= 97) l /\
    (personality_answers p <> [] -> Forall (fun m => 42 <= match_percent m) l).
Proof.
  intros Hdoc. pose proof (personality_tilt_documented _ Hdoc) as [Ht Hb].
  assert (Hlow : -12 <= tilt_trunc (personality_answers p) <= 8).
  { destruct (personality_answers p) as [|a answers] eqn:E.
    - vm_compute. split; discriminate.
    - assert (a :: answers <> []) by discriminate. specialize (Hb H). lia. }
  exists (ranked lower so p (tilt_trunc (personality_answers p))).
  split; [apply score_careers_Ok; eexists; split; [exact Ht | reflexivity]|].
  split.
  - apply Forall_forall. intros m Hm. apply ranked_In in Hm as [entry [_ ->]].
    cbn [match_of match_percent].
    pose proof (interest_base_range (py_set so (map lower (interests p))) (fst entry)).
    pose proof (overlap_nonneg lower so (snd entry) (py_set so (map lower (skills p)))).
    unfold clamp. lia.
  - intros Hne. specialize (Hb Hne).
    apply Forall_forall. intros m Hm. apply ranked_In in Hm as [entry [_ ->]].
    cbn [match_of match_percent].
    pose proof (interest_base_range (py_set so (map lower (interests p))) (fst entry)).
    pose proof (overlap_nonneg lower so (snd entry) (py_set so (map lower (skills p)))).
    unfold clamp. lia.
Qed.

Lemma score_careers_documented_bounds_witness :
  exists l,
    score_careers ascii_lower order_fwd
      (submission ["code"] ["python"; "git"; "algorithms"] [5; 5; 5; 5; 5; 5; 5; 5; 5; 5])
    = Ok l /\
    Forall (fun m => 42 <= match_percent m <= 97) l.
Proof.
  set (p := submission ["code"] ["python"; "git"; "algorithms"]
                       [5; 5; 5; 5; 5; 5; 5; 5; 5; 5]).
  destruct (score_careers_documented_bounds ascii_lower order_fwd p) as [l [Hl [H38 H42]]].
  - split; [repeat constructor; lia | cbn; lia].
  - exists l. split; [exact Hl|].
    assert (Hne : personality_answers p <> []) by discriminate.
    specialize (H42 Hne). rewrite Forall_forall in *.
    intros m Hm. specialize (H38 m Hm). specialize (H42 m Hm). lia.
Defined.

(** ** More skills never hurt *)

Lemma clamp_mono (a b : Z) : a <= b -> clamp a <= clamp b.
Proof.
  unfold clamp. lia.
Qed.

(** X6.  A submission that adds skills to another, all else equal, gets for
    every career a [match_percent] at least as high and a [skill_gap] with
    no new entries. *)
Theorem more_skills_never_hurt (lower : string -> string) (so : SetOrder)
    (p q : AssessmentSubmission) (l l' : list CareerMatch) (m m' : CareerMatch) :
  interests p = interests q ->
  personality_answers p = personality_answers q ->
  incl (skills p) (skills q) ->
  score_careers lower so p = Ok l ->
  score_careers lower so q = Ok l' ->
  In m l -> In m' l' -> career m = career m' ->
  match_percent m <= match_percent m' /\ incl (skill_gap m') (skill_gap m).
Proof.
  intros Hi Ha Hincl Hl Hl' Hm Hm' Hc.
  apply score_careers_Ok in Hl as [t [Ht ->]].
  apply score_careers_Ok in Hl' as [t' [Ht' ->]].
  rewrite Ha, Ht' in Ht. injection Ht as <-.
  apply ranked_In in Hm as [e [He ->]]. apply ranked_In in Hm' as [e' [He' ->]].
  cbn [match_of career] in Hc.
  rewrite (catalog_entry_unique e e' He He' Hc). rewrite Hi.
  assert (Hmem : forall x, mem x (py_set so (map lower (skills p))) = true ->
                           mem x (py_set so (map lower (skills q))) = true).
  { intros x. rewrite !mem_py_set, !mem_In, !in_map_iff.
    intros [s [E Hs]]. exists s. split; [exact E | now apply Hincl]. }
  cbn [match_of match_percent skill_gap]. split.
  - apply clamp_mono.
    assert (overlap lower so (snd e') (py_set so (map lower (skills p)))
            <= overlap lower so (snd e') (py_set so (map lower (skills q)))).
    { unfold overlap, intersection, len. apply inj_le.
      apply filter_length_mono. exact Hmem. }
    lia.
  - intros g Hg. apply filter_In in Hg as [Hg Hneg]. apply filter_In.
    split; [exact Hg|]. apply negb_true_iff in Hneg. apply negb_true_iff.
    destruct (mem (lower g) (py_set so (map lower (skills p)))) eqn:E; [|reflexivity].
    apply Hmem in E. congruence.
Qed.

Lemma more_skills_never_hurt_witness :
  exists m m',
    In m (ranked ascii_lower order_fwd scenario 5) /\
    In m' (ranked ascii_lower order_fwd
             (submission ["code"; "data"] ["python"; "git"; "Pandas"] [4; 4; 5]) 5) /\
    career m = "Data Scientist" /\ career m' = "Data Scientist" /\
    match_percent m = 85 /\ match_percent m' = 91 /\
    match_percent m <= match_percent m' /\ incl (skill_gap m') (skill_gap m).
Proof.
  set (q := submission ["code"; "data"] ["python"; "git"; "Pandas"] [4; 4; 5]).
  pose (m := match_of ascii_lower order_fwd
               (py_set order_fwd (map ascii_lower (interests scenario)))
               (py_set order_fwd (map ascii_lower (skills scenario))) 5
               ("Data Scientist", profile "Data Scientist")).
  pose (m' := match_of ascii_lower order_fwd
                (py_set order_fwd (map ascii_lower (interests q)))
                (py_set order_fwd (map ascii_lower (skills q))) 5
                ("Data Scientist", profile "Data Scientist")).
  assert (Hm : In m (ranked ascii_lower order_fwd scenario 5))
    by (vm_compute; right; left; reflexivity).
  assert (Hm' : In m' (ranked ascii_lower order_fwd q 5))
    by (vm_compute; right; left; reflexivity).
  exists m, m'. split; [exact Hm|]. split; [exact Hm'|].
  split; [reflexivity|]. split; [reflexivity|].
  split; [vm_compute; reflexivity|]. split; [vm_compute; reflexivity|].
  apply (more_skills_never_hurt ascii_lower order_fwd scenario q
           (ranked ascii_lower order_fwd scenario 5) (ranked ascii_lower order_fwd q 5)).
  - reflexivity.
  - reflexivity.
  - intros s Hs. cbn in Hs |- *. tauto.
  - vm_compute. reflexivity.
  - vm_compute. reflexivity.
  - exact Hm.
  - exact Hm'.
  - reflexivity.
Defined.

(** ** Ties *)

Lemma insert_desc_head (m : CareerMatch) (l : list CareerMatch) :
  Forall (desc m) l -> insert_desc m l = m :: l.
Proof.
  intros H. destruct l as [|x r]; [reflexivity|]. cbn [insert_desc].
  inversion H as [|? ? Hx _]; subst. unfold desc in Hx.
  replace (match_percent m <? match_percent x) with false
    by (symmetry; apply Z.ltb_ge; lia).
  reflexivity.
Qed.

(** Sorting a list that is already in descending order changes nothing. *)
Lemma sort_desc_sorted_id (l : list CareerMatch) :
  StronglySorted desc l -> sort_desc l = l.
Proof.
  induction 1 as [|m l _ IH Hm]; [reflexivity|].
  cbn [sort_desc fold_right]. fold (sort_desc l). rewrite IH.
  now apply insert_desc_head.
Qed.

Lemma StronglySorted_constant (k : Z) (l : list CareerMatch) :
  Forall (fun m => match_percent m = k) l -> StronglySorted desc l.
Proof.
  induction 1 as [|m l Hm Hl IH]; constructor; [exact IH|].
  eapply Forall_impl; [|exact Hl]. unfold desc. intros x Hx. lia.
Qed.

Lemma py_set_nil (so : SetOrder) : py_set so [] = [].
Proof.
  destruct (py_set so []) as [|x xs] eqn:E; [reflexivity|].
  assert (H : In x (py_set so [])) by (rewrite E; now left).
  apply py_set_In in H. contradiction.
Qed.

Lemma overlap_no_skills (lower : string -> string) (so : SetOrder) (meta : CareerMeta) :
  overlap lower so meta [] = 0.
Proof.
  unfold overlap, intersection, len.
  induction (py_set so (map lower (meta_skills meta))) as [|x xs IH]; [reflexivity|].
  cbn [filter mem existsb]. exact IH.
Qed.

Lemma filter_keeps_all {A : Type} (f : A -> bool) (l : list A) :
  (forall x, f x = true) -> filter f l = l.
Proof.
  intros H. induction l as [|x l IH]; cbn [filter]; [reflexivity|].
  now rewrite H, IH.
Qed.

(** X7.  A submission with no interests and no skills gives all five
    careers the same score, 50 plus the tilt (clamped), no strengths and
    the whole profile as skill gap, and they come back in the order of the
    catalog. *)
Theorem no_signal_keeps_catalog_order (lower : string -> string) (so : SetOrder)
    (p : AssessmentSubmission) (l : list CareerMatch) :
  interests p = [] -> skills p = [] ->
  score_careers lower so p = Ok l ->
  map career l = map fst CAREER_LIBRARY /\
  exists t, personality_tilt (personality_answers p) = Ok t /\
            Forall (fun m => match_percent m = clamp (50 + t) /\
                             strengths m = [] /\
                             exists meta, In (career m, meta) CAREER_LIBRARY /\
                                          skill_gap m = meta_skills meta) l.
Proof.
  intros Hi Hs Hl. apply score_careers_Ok in Hl as [t [Ht ->]].
  unfold ranked. rewrite Hi, Hs. cbn [map]. rewrite py_set_nil.
  set (built := map (match_of lower so [] [] t) CAREER_LIBRARY).
  assert (Hall : Forall (fun m => match_percent m = clamp (50 + t) /\
                                  strengths m = [] /\
                                  exists meta, In (career m, meta) CAREER_LIBRARY /\
                                               skill_gap m = meta_skills meta) built).
  { apply Forall_forall. intros m Hm. apply in_map_iff in Hm as [[c meta] [<- Hin]].
    cbn [match_of match_percent strengths skill_gap career fst snd].
    rewrite overlap_no_skills. split; [reflexivity|]. split; [reflexivity|].
    exists meta. split; [exact Hin|].
    apply filter_keeps_all. reflexivity. }
  assert (Hsorted : StronglySorted desc built).
  { apply (StronglySorted_constant (clamp (50 + t))).
    eapply Forall_impl; [|exact Hall]. intros m Hm. apply Hm. }
  rewrite (sort_desc_sorted_id built Hsorted). split.
  - unfold built. rewrite map_map. reflexivity.
  - exists t. split; [exact Ht | exact Hall].
Qed.

Lemma no_signal_keeps_catalog_order_witness :
  exists l,
    score_careers ascii_lower order_rev (submission [] [] [2; 3; 3]) = Ok l /\
    map career l =
      ["Software Engineer"; "Data Scientist"; "UI/UX Designer";
       "Cybersecurity Analyst"; "Product Manager"] /\
    Forall (fun m => match_percent m = 49) l.
Proof.
  assert (Hl : score_careers ascii_lower order_rev (submission [] [] [2; 3; 3])
               = Ok (ranked ascii_lower order_rev (submission [] [] [2; 3; 3]) (-1)))
    by (vm_compute; reflexivity).
  destruct (no_signal_keeps_catalog_order ascii_lower order_rev
              (submission [] [] [2; 3; 3]) _ eq_refl eq_refl Hl)
    as [Hc [t [Ht Hall]]].
  exists (ranked ascii_lower order_rev (submission [] [] [2; 3; 3]) (-1)).
  split; [exact Hl|]. split; [exact Hc|].
  assert (E : t = -1) by (vm_compute in Ht; now injection Ht).
  subst t. eapply Forall_impl; [|exact Hall]. intros m [Hm _]. exact Hm.
Defined.

(** * The assessment route *)

Lemma catalog_five_skills :
  Forall (fun e => List.length (meta_skills (snd e)) = 5%nat) CAREER_LIBRARY.
Proof.
  unfold CAREER_LIBRARY. repeat constructor.
Qed.

Lemma ranked_gap_length (lower : string -> string) (so : SetOrder)
    (p : AssessmentSubmission) (t : Z) (m : CareerMatch) :
  In m (ranked lower so p t) -> (List.length (skill_gap m) <= 5)%nat.
Proof.
  intros Hm. apply ranked_In in Hm as [entry [Hin ->]].
  cbn [match_of skill_gap].
  pose proof catalog_five_skills as H. rewrite Forall_forall in H.
  rewrite <- (H entry Hin). apply List.filter_length_le.
Qed.

(** X8.  The skill gap highlight of a returned match names every skill of
    its [skill_gap], joined by commas: the cut at five never drops one.  It
    reads "Minimal" exactly when the gap is empty. *)
Theorem highlights_name_whole_gap (lower : string -> string) (so : SetOrder)
    (p : AssessmentSubmission) (l : list CareerMatch) (m : CareerMatch) :
  score_careers lower so p = Ok l ->
  In m l ->
  highlights_of m =
    [ "Top Career: " ++ career m;
      "Skill Gap Focus: " ++
        match skill_gap m with
        | [] => "Minimal"
        | _ :: _ => join ", " (skill_gap m)
        end;
      "Steady market demand with positive 6M trend" ].
Proof.
  intros Hl Hm. apply score_careers_Ok in Hl as [t [_ ->]].
  pose proof (ranked_gap_length lower so p t m Hm) as Hlen.
  unfold highlights_of, slice_to. now rewrite (firstn_all2 (skill_gap m) Hlen).
Qed.

Lemma highlights_name_whole_gap_witness :
  exists top rest,
    score_careers ascii_lower order_fwd (submission ["design"] [] [3]) = Ok (top :: rest) /\
    highlights_of top =
      [ "Top Career: UI/UX Designer";
        "Skill Gap Focus: Figma, User Research, Prototyping, Visual Design, Accessibility";
        "Steady market demand with positive 6M trend" ].
Proof.
  set (p := submission ["design"] [] [3]).
  assert (Hl : score_careers ascii_lower order_fwd p = Ok (ranked ascii_lower order_fwd p 0))
    by (vm_compute; reflexivity).
  pose (top := match_of ascii_lower order_fwd
                 (py_set order_fwd (map ascii_lower (interests p)))
                 (py_set order_fwd (map ascii_lower (skills p))) 0
                 ("UI/UX Designer", profile "UI/UX Designer")).
  assert (E : ranked ascii_lower order_fwd p 0 = top :: tl (ranked ascii_lower order_fwd p 0))
    by (vm_compute; reflexivity).
  exists top, (tl (ranked ascii_lower order_fwd p 0)). rewrite <- E.
  split; [exact Hl|].
  rewrite (highlights_name_whole_gap ascii_lower order_fwd p _ top Hl)
    by (rewrite E; left; reflexivity).
  vm_compute. reflexivity.
Defined.

Section AssessmentFacts.

Variable lower : string -> string.
Variable so : SetOrder.
Variable DB : Type.
Variable create_document : string -> AssessmentSubmission -> DB -> outcome string * DB.

(** X9.  When scoring succeeds and the submission is stored,
    [run_assessment] answers with the matches of [score_careers] and the
    language of the request; the career its first highlight names has the
    highest [match_percent], and among the careers with that score it is
    the first of the catalog. *)
Theorem run_assessment_top_career (payload : AssessmentSubmission) (db db' : DB)
    (l : list CareerMatch) (id : string) :
  score_careers lower so payload = Ok l ->
  create_document "assessmentsubmission" payload db = (Done id, db') ->
  exists top rest,
    l = top :: rest /\
    Forall (fun m => match_percent m <= match_percent top) l /\
    (forall m, In m rest -> match_percent m = match_percent top ->
       before (map fst CAREER_LIBRARY) (career top) (career m)) /\
    run_assessment lower so DB create_document payload db =
      (Done {| matches := l;
               preview_summary :=
                 [ ("language", VStr (language payload));
                   ("overview", VStr "Assessment complete. Top matches generated based on interests, skills, and personality alignment.");
                   ("highlights", VStrList (highlights_of top)) ] |}, db') /\
    hd_error (highlights_of top) = Some ("Top Career: " ++ career top).
Proof.
  intros Hl Hdb. unfold run_assessment. rewrite Hl, Hdb.
  apply score_careers_Ok in Hl as [t [_ El]].
  pose proof (ranked_length lower so payload t) as Hlen.
  pose proof (sort_desc_sorted
                (map (match_of lower so (py_set so (map lower (interests payload)))
                        (py_set so (map lower (skills payload))) t) CAREER_LIBRARY)) as Hs.
  fold (ranked lower so payload t) in Hs.
  assert (Hstable : forall a b, before l a b -> match_percent a = match_percent b ->
                      before (map fst CAREER_LIBRARY) (career a) (career b)).
  { intros a b Hab Heq. rewrite El in Hab. apply sort_desc_stable in Hab; [|exact Heq].
    apply (before_map career) in Hab. rewrite map_map in Hab. exact Hab. }
  rewrite <- El in Hlen, Hs. clear El.
  destruct l as [|top rest]; [discriminate Hlen|].
  exists top, rest. split; [reflexivity|]. split; [|split; [|split]].
  - constructor; [lia|]. inversion Hs as [|? ? _ Hall]; subst.
    eapply Forall_impl; [|exact Hall]. unfold desc. intros m Hm. lia.
  - intros m Hm Heq. apply Hstable; [|now symmetry].
    apply before_cons. left. now split.
  - reflexivity.
  - reflexivity.
Qed.

(** X10.  [run_assessment] fails in two ways only: with the exception of
    [score_careers], and then the store is as it was and [create_document]
    has not run; or with the failure of [create_document].  Taking the
    first match never fails. *)
Theorem run_assessment_failures (payload : AssessmentSubmission) (db : DB)
    (f : Failure) :
  fst (run_assessment lower so DB create_document payload db) = Failed f ->
  (exists e, score_careers lower so payload = Raise e /\ f = Uncaught e /\
             snd (run_assessment lower so DB create_document payload db) = db) \/
  (exists l db', score_careers lower so payload = Ok l /\
                 create_document "assessmentsubmission" payload db = (Failed f, db') /\
                 snd (run_assessment lower so DB create_document payload db) = db').
Proof.
  unfold run_assessment.
  destruct (score_careers lower so payload) as [l|e] eqn:Hl.
  - pose proof Hl as Hl'. apply score_careers_Ok in Hl' as [t [_ El]].
    pose proof (ranked_length lower so payload t) as Hlen. rewrite <- El in Hlen.
    destruct l as [|top rest]; [discriminate Hlen|]. cbn [index0].
    destruct (create_document "assessmentsubmission" payload db) as [[id|f'] db'] eqn:Hdb;
      cbn [fst snd]; intros H; [discriminate H|].
    injection H as ->. right. exists (top :: rest), db'. now repeat split.
  - cbn [fst snd]. intros [= <-]. left. exists e. now repeat split.
Qed.

End AssessmentFacts.

Lemma run_assessment_top_career_witness :
  exists r,
    run_assessment ascii_lower order_fwd (list AssessmentSubmission)
      (fun _ p db => (Done "id-1", p :: db)) scenario [] = (Done r, [scenario]) /\
    map career (matches r) =
      ["Software Engineer"; "Data Scientist"; "UI/UX Designer";
       "Cybersecurity Analyst"; "Product Manager"] /\
    doc_get (preview_summary r) "highlights" =
      Some (VStrList [ "Top Career: Software Engineer";
                       "Skill Gap Focus: Data Structures, Algorithms, System Design";
                       "Steady market demand with positive 6M trend" ]).
Proof.
  destruct (run_assessment_top_career ascii_lower order_fwd (list AssessmentSubmission)
              (fun _ p db => (Done "id-1", p :: db)) scenario [] [scenario]
              (ranked ascii_lower order_fwd scenario 5) "id-1")
    as [top [rest [E [_ [_ [Hrun _]]]]]].
  - vm_compute. reflexivity.
  - reflexivity.
  - eexists. split; [exact Hrun|]. cbn [matches preview_summary].
    assert (Etop : hd_error (ranked ascii_lower order_fwd scenario 5) = Some top)
      by (rewrite E; reflexivity).
    vm_compute in Etop. injection Etop as <-.
    split; vm_compute; reflexivity.
Defined.

Lemma run_assessment_failures_witness :
  run_assessment ascii_lower order_fwd (list AssessmentSubmission)
    (fun _ p db => (Done "id-1", p :: db)) (submission [] [] [2 ^ 1024]) []
  = (Failed (Uncaught OverflowError), []).
Proof.
  set (run := run_assessment ascii_lower order_fwd (list AssessmentSubmission)
                (fun _ p db => (Done "id-1", p :: db)) (submission [] [] [2 ^ 1024]) []).
  assert (Hf : fst run = Failed (Uncaught OverflowError)) by (vm_compute; reflexivity).
  destruct (run_assessment_failures ascii_lower order_fwd (list AssessmentSubmission)
              (fun _ p db => (Done "id-1", p :: db)) (submission [] [] [2 ^ 1024]) []
              (Uncaught OverflowError) Hf)
    as [[e [_ [_ Hdb]]] | [l [db' [_ [Hc _]]]]].
  - fold run in Hdb. destruct run as [o d]. cbn [fst snd] in Hf, Hdb. now subst.
  - discriminate Hc.
Defined.

(** * The waitlist *)

(** X11.  [waitlist_stats] lists the names of the ten most recent entries
    it was given, newest first: the first ten of the names in reverse
    order, all of them when there are fewer; with no database the total is
    the number of entries. *)
Theorem waitlist_stats_recent (counted : option Z)
    (items : list (list (string * PyValue))) :
  let names := map (fun i => doc_get i "name") items in
  snd (waitlist_stats counted items) = firstn 10 (rev names) /\
  List.length (snd (waitlist_stats counted items)) = Nat.min 10 (List.length items) /\
  (forall newest older, rev items = newest :: older ->
     hd_error (snd (waitlist_stats counted items)) = Some (doc_get newest "name")) /\
  (counted = None -> fst (waitlist_stats counted items) = len items).
Proof.
  intros names. unfold waitlist_stats, slice_last. cbn [fst snd]. fold names.
  rewrite <- firstn_rev. split; [reflexivity|]. split; [|split].
  - rewrite length_firstn, length_rev. unfold names. now rewrite length_map.
  - intros newest older H. unfold names. rewrite <- map_rev, H. reflexivity.
  - intros ->. reflexivity.
Qed.

Lemma waitlist_stats_recent_witness :
  hd_error (snd (waitlist_stats None
                   [ [("name", VStr "Asha"); ("email", VStr "a@example.com")];
                     [("email", VStr "b@example.com")];
                     [("name", VStr "Chen")] ]))
  = Some (Some (VStr "Chen")) /\
  fst (waitlist_stats None
         [ [("name", VStr "Asha"); ("email", VStr "a@example.com")];
           [("email", VStr "b@example.com")];
           [("name", VStr "Chen")] ]) = 3.
Proof.
  destruct (waitlist_stats_recent None
              [ [("name", VStr "Asha"); ("email", VStr "a@example.com")];
                [("email", VStr "b@example.com")];
                [("name", VStr "Chen")] ]) as [_ [_ [Hnew Hcount]]].
  split.
  - exact (Hnew [("name", VStr "Chen")]
             [ [("email", VStr "b@example.com")];
               [("name", VStr "Asha"); ("email", VStr "a@example.com")] ] eq_refl).
  - exact (Hcount eq_refl).
Defined.

(** * The template store *)

Lemma find_one_upsert_same (store : TemplateStore) (c : string) (doc : TemplateDoc) :
  d_career doc = c -> find_one (update_one_upsert store c doc) c = Some doc.
Proof.
  intros Hc. unfold find_one.
  induction store as [|d store IH]; cbn [update_one_upsert find].
  - now rewrite Hc, String.eqb_refl.
  - destruct (String.eqb (d_career d) c) eqn:E; cbn [find].
    + now rewrite Hc, String.eqb_refl.
    + rewrite E. exact IH.
Qed.

Lemma find_one_upsert_other (store : TemplateStore) (c c' : string) (doc : TemplateDoc) :
  d_career doc = c -> c' <> c ->
  find_one (update_one_upsert store c doc) c' = find_one store c'.
Proof.
  intros Hc Hne. unfold find_one.
  assert (Hdoc : String.eqb (d_career doc) c' = false)
    by (apply String.eqb_neq; congruence).
  induction store as [|d store IH]; cbn [update_one_upsert find].
  - now rewrite Hdoc.
  - destruct (String.eqb (d_career d) c) eqn:E; cbn [find].
    + apply String.eqb_eq in E.
      assert (Hd : String.eqb (d_career d) c' = false)
        by (apply String.eqb_neq; congruence).
      now rewrite Hdoc, Hd.
    + destruct (String.eqb (d_career d) c'); [reflexivity | exact IH].
Qed.

Lemma update_one_upsert_careers (store : TemplateStore) (c : string) (doc : TemplateDoc) :
  d_career doc = c ->
  map d_career (update_one_upsert store c doc) =
  if existsb (fun d => String.eqb (d_career d) c) store
  then map d_career store
  else (map d_career store ++ [c])%list.
Proof.
  intros Hc. induction store as [|d store IH]; cbn [update_one_upsert existsb map app].
  - now rewrite Hc.
  - destruct (String.eqb (d_career d) c) eqn:E; cbn [orb map].
    + apply String.eqb_eq in E. now rewrite Hc, E.
    + rewrite IH. now destruct (existsb _ store).
Qed.

(** X12.  After [upsert_template] stored a template, [generate_roadmap] for
    its career returns that template's summary, skills, stages and actions,
    whatever the store held before: the last write wins. *)
Theorem upsert_then_roadmap (store : TemplateStore) (tpl : CareerTemplate)
    (data : list (string * string)) :
  requested data = t_career tpl ->
  exists store',
    upsert_template (Some store) tpl = (Done [("ok", true)], Some store') /\
    generate_roadmap (Some store') data =
      Ok {| r_career := t_career tpl;
            r_summary := t_summary tpl;
            r_required_skills := t_required_skills tpl;
            r_roadmap := t_roadmap tpl;
            r_actions := t_default_actions tpl |}.
Proof.
  intros Hreq. eexists. split; [reflexivity|].
  rewrite generate_roadmap_cases, Hreq. cbn [lookup].
  now rewrite find_one_upsert_same.
Qed.

Lemma upsert_then_roadmap_witness :
  exists store',
    upsert_template
      (Some [ model_dump {| t_career := "Data Scientist"; t_summary := "Old.";
                            t_required_skills := ["R"]; t_roadmap := [];
                            t_default_actions := []; t_prompts := None |} ])
      {| t_career := "Data Scientist"; t_summary := "New.";
         t_required_skills := ["Python"; "SQL"]; t_roadmap := [("Year 1", ["Statistics"])];
         t_default_actions := ["Kaggle"]; t_prompts := None |}
    = (Done [("ok", true)], Some store') /\
    List.length store' = 1%nat /\
    generate_roadmap (Some store') [("career", "Data Scientist")] =
      Ok {| r_career := "Data Scientist"; r_summary := "New.";
            r_required_skills := ["Python"; "SQL"];
            r_roadmap := [("Year 1", ["Statistics"])];
            r_actions := ["Kaggle"] |}.
Proof.
  destruct (upsert_then_roadmap
              [ model_dump {| t_career := "Data Scientist"; t_summary := "Old.";
                              t_required_skills := ["R"]; t_roadmap := [];
                              t_default_actions := []; t_prompts := None |} ]
              {| t_career := "Data Scientist"; t_summary := "New.";
                 t_required_skills := ["Python"; "SQL"];
                 t_roadmap := [("Year 1", ["Statistics"])];
                 t_default_actions := ["Kaggle"]; t_prompts := None |}
              [("career", "Data Scientist")] eq_refl)
    as [store' [Hup Hroad]].
  exists store'. split; [exact Hup|]. split; [|exact Hroad].
  cbn in Hup. injection Hup as <-. reflexivity.
Defined.

(** X13.  [upsert_template] touches one career only: the roadmap of every
    other career is what it was, and a store that holds at most one
    document for each career still does, with one more document exactly
    when the career was new. *)
Theorem upsert_leaves_others (store : TemplateStore) (tpl : CareerTemplate)
    (data : list (string * string)) :
  let store' := update_one_upsert store (t_career tpl) (model_dump tpl) in
  (requested data <> t_career tpl ->
   generate_roadmap (Some store') data = generate_roadmap (Some store) data) /\
  (NoDup (map d_career store) -> NoDup (map d_career store')) /\
  List.length store' =
    if existsb (fun d => String.eqb (d_career d) (t_career tpl)) store
    then List.length store else S (List.length store).
Proof.
  intros store'. split; [|split].
  - intros Hne. rewrite !generate_roadmap_cases. cbn [lookup]. unfold store'.
    now rewrite find_one_upsert_other.
  - intros Hnd. unfold store'. rewrite update_one_upsert_careers by reflexivity.
    destruct (existsb _ store) eqn:E; [exact Hnd|].
    apply NoDup_app; [exact Hnd | repeat constructor; intros [] |].
    intros c Hc [<- | []]. apply in_map_iff in Hc as [d [Hd Hin]].
    assert (Ht : existsb (fun d => String.eqb (d_career d) (t_career tpl)) store = true)
      by (apply existsb_exists; exists d; split; [exact Hin | now apply String.eqb_eq]).
    congruence.
  - rewrite <- !(length_map d_career). unfold store'.
    rewrite update_one_upsert_careers by reflexivity.
    destruct (existsb _ store); [reflexivity|]. rewrite length_app. cbn. lia.
Qed.

Lemma upsert_leaves_others_witness :
  generate_roadmap
    (Some (update_one_upsert [] "Data Scientist"
             (model_dump {| t_career := "Data Scientist"; t_summary := "New.";
                            t_required_skills := ["Python"]; t_roadmap := [];
                            t_default_actions := []; t_prompts := None |})))
    [("career", "Product Manager")]
  = generate_roadmap (Some []) [("career", "Product Manager")].
Proof.
  apply (upsert_leaves_others []
           {| t_career := "Data Scientist"; t_summary := "New.";
              t_required_skills := ["Python"]; t_roadmap := [];
              t_default_actions := []; t_prompts := None |}
           [("career", "Product Manager")]).
  discriminate.
Defined.

(** * More of the roadmap selector *)

Lemma library_get_present (lib : list (string * CareerMeta)) (c : string)
    (meta default : CareerMeta) :
  NoDup (map fst lib) -> In (c, meta) lib -> library_get lib c default = meta.
Proof.
  induction lib as [|[k v] lib IH]; cbn [library_get map fst In]; intros Hnd Hin;
    [contradiction|].
  inversion Hnd as [|? ? Hnotin Hnd']; subst.
  destruct Hin as [[= -> ->] | Hin].
  - now rewrite String.eqb_refl.
  - destruct (String.eqb k c) eqn:E.
    + apply String.eqb_eq in E. subst k. exfalso. apply Hnotin.
      now apply (in_map fst) in Hin.
    + now apply IH.
Qed.


(** X14.  Without a stored template, a career of the catalog gets its own
    skills as [required_skills]; the stages and the actions are the same
    for every career. *)
Theorem catalog_career_default (db : option TemplateStore)
    (data : list (string * string)) (meta : CareerMeta) :
  lookup db (requested data) = None ->
  In (requested data, meta) CAREER_LIBRARY ->
  exists r,
    generate_roadmap db data = Ok r /\
    r_required_skills r = meta_skills meta /\
    r_roadmap r = default_stages /\
    r_actions r = ["Complete DSA 150"; "Build 2 real-world projects";
                   "Internship hunt"; "Leetcode 100"] /\
    r_summary r = "A clear, stage-wise pathway to become a " ++ requested data ++ ".".
Proof.
  intros Hnone Hin. exists (default_roadmap (requested data)).
  split; [rewrite generate_roadmap_cases, Hnone; reflexivity|].
  unfold default_roadmap. cbn [r_required_skills r_roadmap r_actions r_summary].
  rewrite (library_get_present _ _ meta _ catalog_keys_NoDup Hin).
  repeat split; reflexivity.
Qed.

Lemma catalog_career_default_witness :
  exists r,
    generate_roadmap None [("career", "Cybersecurity Analyst")] = Ok r /\
    r_required_skills r =
      ["Network Basics"; "Linux"; "Threat Modeling"; "SIEM"; "Security+"] /\
    map fst (r_roadmap r) =
      ["Classes 8–10"; "Classes 11–12"; "Graduation"; "Certifications"; "Portfolio"].
Proof.
  destruct (catalog_career_default None [("career", "Cybersecurity Analyst")]
              (profile "Cybersecurity Analyst")) as [r [Hr [Hs [Hst _]]]].
  - reflexivity.
  - right. right. right. left. reflexivity.
  - exists r. split; [exact Hr|]. split; [rewrite Hs | rewrite Hst]; reflexivity.
Defined.



(** * The PDF route *)


Section PdfFacts.

Variable cm : PyFloat.float.
Variable height : PyFloat.float.




Lemma clear_of_margin_items (items : list string) (y : PyFloat.float)
    (rest : list CanvasOp) :
  SFltb (PyFloat.sub height (PyFloat.mul (PyFloat.of_int 3) cm))
        (PyFloat.mul (PyFloat.of_int 3) cm) = false ->
  clear_of_margin cm 11 rest ->
  clear_of_margin cm 11 (fst (draw_items cm height items y) ++ rest).
Proof.
  intros Htall Hrest. revert y. induction items as [|it more IH]; intros y; [exact Hrest|].
  cbn [draw_items].
  destruct (SFltb y (PyFloat.mul (PyFloat.of_int 3) cm)) eqn:E;
    match goal with
    | |- context [draw_items cm height more ?y'] =>
        specialize (IH y'); destruct (draw_items cm height more y') as [ops y'']
    end;
    cbn [fst app clear_of_margin] in IH |- *.
  - split; [discriminate|]. split; [intros _; exact Htall | exact IH].
  - split; [discriminate|]. split; [intros _; exact E | exact IH].
Qed.

Lemma clear_of_margin_sections (sections : list (string * list string))
    (y : PyFloat.float) (rest : list CanvasOp) :
  SFltb (PyFloat.sub height (PyFloat.mul (PyFloat.of_int 3) cm))
        (PyFloat.mul (PyFloat.of_int 4) cm) = false ->
  SFltb (PyFloat.sub height (PyFloat.mul (PyFloat.of_int 3) cm))
        (PyFloat.mul (PyFloat.of_int 3) cm) = false ->
  (forall size, clear_of_margin cm size rest) ->
  forall size, clear_of_margin cm size (fst (draw_sections cm height sections y) ++ rest).
Proof.
  intros H4 H3 Hrest. revert y.
  induction sections as [|[section items] more IH]; intros y size; [apply Hrest|].
  cbn [draw_sections].
  destruct (SFltb y (PyFloat.mul (PyFloat.of_int 4) cm)) eqn:E;
    match goal with
    | |- context [draw_items cm height items ?y'] =>
        pose proof (fun tail => clear_of_margin_items items y' tail H3) as Hi;
        destruct (draw_items cm height items y') as [lines y1]
    end;
    match goal with
    | |- context [draw_sections cm height more ?y'] =>
        specialize (IH y' 11); destruct (draw_sections cm height more y') as [ops y2]
    end;
    cbn [fst] in IH, Hi |- *;
    rewrite <- !app_assoc; cbn [app clear_of_margin].
  - split; [intros _; exact H4|]. split; [discriminate|]. now apply Hi.
  - split; [intros _; exact E|]. split; [discriminate|]. now apply Hi.
Qed.

(** X17.  On a page tall enough that a fresh page starts above both
    limits, as A4 is, no section title is drawn with the cursor below 4 cm
    and no item with the cursor below 3 cm, however long the roadmap is. *)
Theorem create_pdf_clear_of_margin (data : PdfRequest) (r : StreamingResponse) :
  SFltb (PyFloat.sub height (PyFloat.mul (PyFloat.of_int 3) cm))
        (PyFloat.mul (PyFloat.of_int 4) cm) = false ->
  SFltb (PyFloat.sub height (PyFloat.mul (PyFloat.of_int 3) cm))
        (PyFloat.mul (PyFloat.of_int 3) cm) = false ->
  create_pdf true cm height data = Done r ->
  clear_of_margin cm 0 (body r).
Proof.
  intros H4 H3. unfold create_pdf. cbn [negb].
  pose proof (clear_of_margin_sections (get (pdf_roadmap data) [])
                (PyFloat.sub height (PyFloat.mul (PyFloat.of_int 5) cm))
                [ShowPage; Save] H4 H3 (fun _ => I) 11) as Hs.
  destruct (draw_sections cm height _ _) as [sections y]. cbn [fst] in Hs.
  intros [= <-]. cbn [body app clear_of_margin].
  split; [discriminate|]. split; [discriminate|]. exact Hs.
Qed.

End PdfFacts.

Lemma create_pdf_clear_of_margin_witness :
  exists r,
    create_pdf true reportlab_cm reportlab_A4_height
      {| pdf_career := Some "Data Scientist"; pdf_language := Some "hi";
         pdf_roadmap := Some default_stages; pdf_summary := Some "Numbers first." |}
    = Done r /\
    clear_of_margin reportlab_cm 0 (body r).
Proof.
  set (data := {| pdf_career := Some "Data Scientist"; pdf_language := Some "hi";
                  pdf_roadmap := Some default_stages;
                  pdf_summary := Some "Numbers first." |}).
  assert (H : exists r, create_pdf true reportlab_cm reportlab_A4_height data = Done r).
  { unfold create_pdf. cbn [negb].
    destruct (draw_sections reportlab_cm reportlab_A4_height _ _) as [sections y].
    eexists. reflexivity. }
  destruct H as [r Hr]. exists r. split; [exact Hr|].
  apply (create_pdf_clear_of_margin reportlab_cm reportlab_A4_height data r).
  - vm_compute. reflexivity.
  - vm_compute. reflexivity.
  - exact Hr.
Defined.

(** ** The file name and the summary *)









